(** * Tuya sensor handlers: a shallow embedding and its properties

    The repository holds two serverless handlers.  The multi-device one
    (module-level cache, two device ids, [extractSensorData]) and the
    single-device one ([api/temp_hum.js]).  Both sign their requests to the
    Tuya cloud with HMAC-SHA256, first for a token and then for the shadow
    properties of a device.

    Modelling choices, all of them visible in the definitions below:
    - JavaScript strings are [string]; a string stands for its UTF-8 bytes.
    - [Date.now()] readings and the raw sensor values are integers ([Z])
      that a double holds exactly.  The quotient [temperature / 10] is the
      double nearest to the exact quotient, ties to even, held as the
      rational ([Q]) it denotes; [Math.floor] and [Math.min] are exact on
      doubles.
    - [undefined] is [None]: an absent field, a failed [find], a short
      circuited [?.].
    - The network and the clock are an oracle ([World]) the handler
      consults; every request handed to [fetch] is logged.
    - One invocation is followed from its first statement to its response;
      other invocations that the runtime may interleave at an [await] are
      not part of the model.
    - Response bodies are taken well typed: [success] is a boolean,
      [properties], when present, is an array of objects whose [value],
      when present, is an integer that a double holds exactly. *)

From Stdlib Require Import ZArith QArith Qround List String Ascii Bool Lia.
From Stdlib Require Import DecimalString.
From Stdlib Require DecimalZ DecimalPos.
From Stdlib Require Import Qabs.
Import ListNotations.

Local Open Scope string_scope.
Local Open Scope Z_scope.

(** ** JavaScript primitives used by the handlers *)

Module JS.

(** The line feed written [\n] inside the template literals. *)
Definition LF : string := String (ascii_of_nat 10) EmptyString.

(** [Number.prototype.toString] on an integer: decimal digits, with a
    leading minus sign for negatives. *)
Definition toString (z : Z) : string := NilZero.string_of_int (Z.to_int z).

(** [String.prototype.toUpperCase] on one ASCII character. *)
Definition upper_ascii (c : ascii) : ascii :=
  let n := nat_of_ascii c in
  if (97 <=? n)%nat && (n <=? 122)%nat then ascii_of_nat (n - 32) else c.

(** [String.prototype.toUpperCase], on ASCII text (a hex digest is). *)
Fixpoint toUpperCase (s : string) : string :=
  match s with
  | EmptyString => EmptyString
  | String c r => String (upper_ascii c) (toUpperCase r)
  end.

(** String coercion of a possibly undefined string operand of [+]. *)
Definition coerce (s : option string) : string :=
  match s with
  | Some x => x
  | None => "undefined"
  end.

(** The integer part of the binary logarithm of [a / d], for positive [a]
    and [d]. *)
Definition ilog2 (a d : Z) : Z :=
  let l := Z.log2 a - Z.log2 d in
  if (if 0 <=? l then d * 2 ^ l <=? a else d <=? a * 2 ^ (- l)) then l else l - 1.

(** The integer nearest to [n / d], for positive [d]; a tie goes to the
    even neighbour. *)
Definition nearest_even (n d : Z) : Z :=
  let m := n / d in
  let r := n mod d in
  if 2 * r <? d then m
  else if d <? 2 * r then m + 1
  else if Z.even m then m else m + 1.

(** The number [m * 2 ^ e]. *)
Definition scale (m e : Z) : Q :=
  if 0 <=? e then inject_Z (m * 2 ^ e) else m # Z.to_pos (2 ^ (- e)).

(** Rounding to IEEE 754 binary64, to nearest and ties to even: a
    significand of 53 bits, exponents no lower than those of the
    subnormals.  Overflow to infinity is left out: a quotient of an
    integer-valued double by a non-zero integer never overflows. *)
Definition to_double (q : Q) : Q :=
  let n := Qnum q in
  let d := Zpos (Qden q) in
  if n =? 0 then 0%Q
  else
    let a := Z.abs n in
    let e := Z.max (ilog2 a d - 52) (-1074) in
    let m := if 0 <=? e then nearest_even a (d * 2 ^ e)
             else nearest_even (a * 2 ^ (- e)) d in
    scale (Z.sgn n * m) e.

(** The quotient [a / b] of two integer-valued doubles, [b] not zero: the
    exact quotient rounded to a double. *)
Definition div (a b : Z) : Q := to_double (inject_Z a / inject_Z b).

(** [Math.floor]. *)
Definition Math_floor (q : Q) : Z := Qfloor q.

(** [Math.min] on two integers. *)
Definition Math_min (a b : Z) : Z := Z.min a b.

(** [Array.prototype.find]: the first element, in array order, that
    satisfies the predicate; [undefined] when there is none. *)
Definition find {A : Type} (p : A -> bool) (l : list A) : option A :=
  List.find p l.

(** Strict equality [===] on strings. *)
Definition seq (a b : string) : bool := String.eqb a b.

End JS.

(** ** Data exchanged with the platform *)

(** One entry of a device's shadow [properties] array.  [value] is [None]
  when the entry carries no [value] field. *)
Record Property : Type := mkProperty {
  code : string;
  value : option Z
}.

(** The [result] object of a response body; either call may leave a field
  out. *)
Record ResultObj : Type := mkResult {
  access_token : option string;
  properties : option (list Property)
}.

(** A parsed response body: the application-level [success] flag and the
  [result] payload, absent on failures. *)
Record Json : Type := mkJson {
  success : bool;
  result : option ResultObj
}.

(** What [fetch] followed by [response.json()] hands back. *)
Record Response : Type := mkResponse {
  status : Z;
  json : string + Json   (* [inl msg]: [json()] threw; [inr d]: the body *)
}.

(** [response.ok]: the status is in the range 200 to 299. *)
Definition ok (r : Response) : bool := (200 <=? status r) && (status r <=? 299).

(** The outcome of awaiting one [fetch]. *)
Inductive FetchOutcome : Type :=
| NetworkError (msg : string)
| Received (r : Response).

(** An outgoing request: the URL, the method and the headers that vary. *)
Record Request : Type := mkRequest {
  url : string;
  method : string;
  h_client_id : string;
  h_access_token : option string;
  h_sign : string;
  h_sign_method : string;
  h_t : string;
  h_nonce : string
}.

Definition TUYA_API_ENDPOINT : string := "https://openapi.tuyaus.com".

(** ** Collaborators: Node's [crypto] and the process environment *)

(** [createHash('sha256').update(s).digest('hex')] and
  [createHmac('sha256', key).update(msg, 'utf8').digest('hex')]. *)
Record Crypto : Type := mkCrypto {
  sha256_hex : string -> string;
  hmac_sha256_hex : string -> string -> string   (* key, then message *)
}.

(** The four variables of [process.env] as the strings the handlers work
    with.  The raw environment, in which a variable may be undefined, is
    [ProcessEnv] further down; [resolved] relates the two. *)
Record Env : Type := mkEnv {
  CLIENT_KEY : string;
  CLIENT_SECRET : string;
  ENV_DEVICE_ID : string;
  WINE_DEVICE_ID : string
}.

(** ** The signer, as both handlers inline it *)

Section Signer.

Variable crypto : Crypto.
Variable env : Env.

Definition TUYA_ACCESS_ID : string := CLIENT_KEY env.
Definition TUYA_ACCESS_SECRET : string := CLIENT_SECRET env.

Definition nonce : string := EmptyString.

Definition tokenPath : string := "/v1.0/token?grant_type=1".
Definition tokenMethod : string := "GET".
Definition tokenBody : string := EmptyString.

Definition tokenContentHash : string := sha256_hex crypto tokenBody.

Definition stringToSignForToken : string :=
  tokenMethod ++ JS.LF ++ tokenContentHash ++ JS.LF ++ JS.LF ++ tokenPath.

Definition stringToHmacForToken (tokenTimestamp : string) : string :=
  TUYA_ACCESS_ID ++ tokenTimestamp ++ nonce ++ stringToSignForToken.

Definition tokenSign (tokenTimestamp : string) : string :=
  JS.toUpperCase (hmac_sha256_hex crypto TUYA_ACCESS_SECRET
                    (stringToHmacForToken tokenTimestamp)).

Definition tokenRequest (tokenTimestamp : string) : Request :=
  {| url := TUYA_API_ENDPOINT ++ tokenPath;
     method := tokenMethod;
     h_client_id := TUYA_ACCESS_ID;
     h_access_token := None;
     h_sign := tokenSign tokenTimestamp;
     h_sign_method := "HMAC-SHA256";
     h_t := tokenTimestamp;
     h_nonce := nonce |}.

Definition apiPath (deviceId : string) : string :=
  "/v2.0/cloud/thing/" ++ deviceId ++ "/shadow/properties".
Definition apiMethod : string := "GET".
Definition apiBody : string := EmptyString.

Definition contentHash : string := sha256_hex crypto apiBody.

Definition stringToSignForApiRequest (deviceId : string) : string :=
  apiMethod ++ JS.LF ++ contentHash ++ JS.LF ++ JS.LF ++ apiPath deviceId.

Definition stringToHmac (accessToken apiTimestamp deviceId : string) : string :=
  TUYA_ACCESS_ID ++ accessToken ++ apiTimestamp ++ nonce
    ++ stringToSignForApiRequest deviceId.

Definition apiSign (accessToken apiTimestamp deviceId : string) : string :=
  JS.toUpperCase (hmac_sha256_hex crypto TUYA_ACCESS_SECRET
                    (stringToHmac accessToken apiTimestamp deviceId)).

Definition deviceRequest (accessToken apiTimestamp deviceId : string) : Request :=
  {| url := TUYA_API_ENDPOINT ++ apiPath deviceId;
     method := apiMethod;
     h_client_id := TUYA_ACCESS_ID;
     h_access_token := Some accessToken;
     h_sign := apiSign accessToken apiTimestamp deviceId;
     h_sign_method := "HMAC-SHA256";
     h_t := apiTimestamp;
     h_nonce := nonce |}.

(** The signature as section 4.1 of the specification words it, for
    comparison with the two inlined computations above. *)
Definition spec_contentHash (requestBody : string) : string :=
  sha256_hex crypto requestBody.

Definition spec_stringToSign (httpMethod requestBody urlPath : string) : string :=
  httpMethod ++ JS.LF ++ spec_contentHash requestBody ++ JS.LF ++ JS.LF ++ urlPath.

Definition spec_signingInput (clientId : string) (accessToken : option string)
    (timestamp nonce' httpMethod requestBody urlPath : string) : string :=
  clientId
    ++ match accessToken with Some tok => tok | None => EmptyString end
    ++ timestamp ++ nonce' ++ spec_stringToSign httpMethod requestBody urlPath.

Definition spec_signature (secret clientId : string) (accessToken : option string)
    (timestamp nonce' httpMethod requestBody urlPath : string) : string :=
  JS.toUpperCase
    (hmac_sha256_hex crypto secret
       (spec_signingInput clientId accessToken timestamp nonce' httpMethod
          requestBody urlPath)).

End Signer.


(** ** Effects: the clock, the network, exceptions and the module state *)

(** A normalized reading, as [extractSensorData] returns it. *)
Record Reading : Type := mkReading {
  temperature : Z;
  humidity : Z
}.

(** A reading spread into a response entry together with its unit. *)
Record Entry : Type := mkEntry {
  reading : Reading;
  unit_ : string
}.

(** [responseData] of the multi-device handler. *)
Record ResponseData : Type := mkResponseData {
  device : Entry;
  wine_device : Entry
}.

(** The two module-level variables of the multi-device handler. *)
Record Cache : Type := mkCache {
  cachedData : option ResponseData;
  lastFetchTimestamp : Z
}.

(** Their values when the module is loaded. *)
Definition initial_cache : Cache :=
  {| cachedData := None; lastFetchTimestamp := 0 |}.

Definition CACHE_DURATION : Z := 5 * 60 * 1000.

(** What one invocation meets: the successive readings of [Date.now()],
    the outcome of the n-th request handed to [fetch], and, for a
    [Promise.all] over two promises that both reject, which rejection
    comes first. *)
Record World : Type := mkWorld {
  clock : nat -> Z;
  net : nat -> Request -> FetchOutcome;
  second_rejects_first : bool
}.

(** The state one invocation threads: the module variables, the number of
    clock readings taken, and the requests issued so far, oldest first. *)
Record Run : Type := mkRun {
  cache : Cache;
  ticks : nat;
  sent : list Request
}.

(** What can be thrown inside the [try] block. *)
Inductive Exn : Type :=
| FetchFailed (msg : string)              (* [fetch] or [json()] threw *)
| TypeError (msg : string)                (* property read on [undefined] *)
| DeviceError (deviceId : string) (data : Json).
                                          (* [new Error(`Failed to fetch data for device ...`)] *)

Definition M (A : Type) : Type := World -> Run -> (Exn + A) * Run.

Definition ret {A : Type} (a : A) : M A := fun _ r => (inr a, r).

Definition throw {A : Type} (e : Exn) : M A := fun _ r => (inl e, r).

Definition bind {A B : Type} (m : M A) (k : A -> M B) : M B :=
  fun w r =>
    match m w r with
    | (inl e, r') => (inl e, r')
    | (inr a, r') => k a w r'
    end.

(** [try { m } catch (error) { h error }]. *)
Definition try_catch {A : Type} (m : M A) (h : Exn -> M A) : M A :=
  fun w r =>
    match m w r with
    | (inl e, r') => h e w r'
    | (inr a, r') => (inr a, r')
    end.

Declare Scope js_scope.
Delimit Scope js_scope with js.
Notation "x <- m ;; k" := (bind m (fun x => k))
  (at level 61, m at next level, right associativity) : js_scope.
Notation "m ;;; k" := (bind m (fun _ => k))
  (at level 61, right associativity) : js_scope.

(** [Date.now()]. *)
Definition Date_now : M Z :=
  fun w r => (inr (clock w (ticks r)),
              {| cache := cache r; ticks := S (ticks r); sent := sent r |}).

(** Reading and assigning the module variables. *)
Definition read_cache : M Cache := fun _ r => (inr (cache r), r).

Definition set_cachedData (d : ResponseData) : M unit :=
  fun _ r =>
    (inr tt,
     {| cache := {| cachedData := Some d;
                    lastFetchTimestamp := lastFetchTimestamp (cache r) |};
        ticks := ticks r; sent := sent r |}).

Definition set_lastFetchTimestamp (t : Z) : M unit :=
  fun _ r =>
    (inr tt,
     {| cache := {| cachedData := cachedData (cache r);
                    lastFetchTimestamp := t |};
        ticks := ticks r; sent := sent r |}).

(** A pending promise: what remains to run once it is awaited. *)
Definition Promise (A : Type) : Type := M A.

(** [fetch(url, options)]: the request leaves at once; the promise it
    returns settles with the oracle's outcome for that request. *)
Definition fetch (req : Request) : M (Promise Response) :=
  fun _ r =>
    let ticket := List.length (sent r) in
    (inr (fun w r' =>
            match net w ticket req with
            | NetworkError msg => (inl (FetchFailed msg), r')
            | Received resp => (inr resp, r')
            end),
     {| cache := cache r; ticks := ticks r; sent := (sent r ++ [req])%list |}).

(** [await p]. *)
Definition await {A : Type} (p : Promise A) : M A := p.

(** [response.json()]. *)
Definition response_json (resp : Response) : Promise Json :=
  match json resp with
  | inl msg => throw (FetchFailed msg)
  | inr data => ret data
  end.

(** [Promise.all([p1, p2])]: fulfilled with both values when both promises
    fulfil; rejected with the reason of the first promise to reject. *)
Definition Promise_all2 {A B : Type} (p1 : Promise A) (p2 : Promise B)
    : Promise (A * B) :=
  fun w r =>
    match p1 w r with
    | (inr a, r1) =>
        match p2 w r1 with
        | (inr b, r2) => (inr (a, b), r2)
        | (inl e2, r2) => (inl e2, r2)
        end
    | (inl e1, r1) =>
        match p2 w r1 with
        | (inr _, r2) => (inl e1, r2)
        | (inl e2, r2) =>
            (inl (if second_rejects_first w then e2 else e1), r2)
        end
    end.

(** The body of a response written to [res]. *)
Inductive Body : Type :=
| EndNoBody
| ErrorMessage (error message : string)
| Payload (data : ResponseData)
| TokenFailure (error : string) (details : Json)
| DataNotFound (message : string) (device1Data device2Data : option Reading)
    (fullResponse : Json * Json)
| InternalServerError (error : string) (thrown : Exn).

Record HttpResult : Type := mkHttpResult {
  res_status : Z;
  res_body : Body
}.

(** Optional chaining [o?.f]. *)
Definition chain {A B : Type} (o : option A) (f : A -> option B) : option B :=
  match o with
  | Some a => f a
  | None => None
  end.

(** The two predicates handed to [find], shared by both handlers. *)
Definition is_temperature (s : Property) : bool :=
  JS.seq (code s) "temp_current" || JS.seq (code s) "va_temperature".

Definition is_humidity (s : Property) : bool :=
  JS.seq (code s) "humidity_value" || JS.seq (code s) "va_humidity".

(** ** The multi-device handler *)

Module Multi.

(** The cache check of the handler: the payload when one is stored and it
    is younger than [CACHE_DURATION] at [now]. *)
Definition cache_get (c : Cache) (now : Z) : option ResponseData :=
  match cachedData c with
  | Some data =>
      if now - lastFetchTimestamp c <? CACHE_DURATION then Some data else None
  | None => None
  end.

(** The two assignments that update the cache. *)
Definition cache_put (responseData : ResponseData) (now : Z) : M unit :=
  (set_cachedData responseData ;;;
   set_lastFetchTimestamp now)%js.

Definition extractSensorData (data : Json) (deviceId : string) : option Reading :=
  let properties := chain (result data) properties in
  let temperature := chain (chain properties (JS.find is_temperature)) value in
  let humidity := chain (chain properties (JS.find is_humidity)) value in
  match temperature, humidity with
  | Some temperature, Some humidity =>
      Some {| temperature := JS.Math_floor (JS.div temperature 10);
              humidity := JS.Math_min humidity 65 |}
  | _, _ => None
  end.

Section Handler.

Variable crypto : Crypto.
Variable env : Env.

Definition DEVICE_ID : string := ENV_DEVICE_ID env.
Definition DEVICE_ID_2 : string := WINE_DEVICE_ID env.

(** The async helper: the request leaves when it is called; the promise it
    returns rejects on a thrown fetch, a non-2xx status or a false
    [success], and fulfils with the body otherwise. *)
Definition fetchDeviceData (accessToken apiTimestamp deviceId : string)
    : M (Promise Json) :=
  (pending <- fetch (deviceRequest crypto env accessToken apiTimestamp deviceId) ;;
   ret (response <- await pending ;;
        data <- await (response_json response) ;;
        if negb (ok response) || negb (success data)
        then throw (DeviceError deviceId data)
        else ret data))%js.

Definition responseData_of (device1SensorData device2SensorData : Reading)
    : ResponseData :=
  {| device := {| reading := device1SensorData; unit_ := "celsius" |};
     wine_device := {| reading := device2SensorData; unit_ := "celsius" |} |}.

(** The [try] block, entered on a cache miss with [now] already sampled. *)
Definition fetch_fresh (now : Z) : M HttpResult :=
  (tokenTimestamp <- Date_now ;;
   let tokenTimestamp := JS.toString tokenTimestamp in
   pending <- fetch (tokenRequest crypto env tokenTimestamp) ;;
   tokenResponse <- await pending ;;
   tokenData <- await (response_json tokenResponse) ;;
   if negb (ok tokenResponse) || negb (success tokenData) then
     ret {| res_status := status tokenResponse;
            res_body := TokenFailure "Failed to fetch access token from Tuya API"
                          tokenData |}
   else
     match result tokenData with
     | None =>
         throw (TypeError "Cannot read properties of undefined (reading 'access_token')")
     | Some token_result =>
         let accessToken := JS.coerce (access_token token_result) in
         apiTimestamp <- Date_now ;;
         let apiTimestamp := JS.toString apiTimestamp in
         promise1 <- fetchDeviceData accessToken apiTimestamp DEVICE_ID ;;
         promise2 <- fetchDeviceData accessToken apiTimestamp DEVICE_ID_2 ;;
         both <- await (Promise_all2 promise1 promise2) ;;
         let device1Data := fst both in
         let device2Data := snd both in
         let device1SensorData := extractSensorData device1Data DEVICE_ID in
         let device2SensorData := extractSensorData device2Data DEVICE_ID_2 in
         match device1SensorData, device2SensorData with
         | Some reading1, Some reading2 =>
             let responseData := responseData_of reading1 reading2 in
             cache_put responseData now ;;;
             ret {| res_status := 200; res_body := Payload responseData |}
         | _, _ =>
             ret {| res_status := 404;
                    res_body :=
                      DataNotFound
                        "Temperature or humidity data not found for one or both devices. Check device status codes."
                        device1SensorData device2SensorData
                        (device1Data, device2Data) |}
         end
     end)%js.

Definition handler (req_method : string) : M HttpResult :=
  if JS.seq req_method "OPTIONS" then
    ret {| res_status := 200; res_body := EndNoBody |}
  else if negb (JS.seq req_method "GET") then
    ret {| res_status := 405;
           res_body := ErrorMessage "Method Not Allowed"
                         "Only GET requests are supported." |}
  else
    (now <- Date_now ;;
     c <- read_cache ;;
     match cache_get c now with
     | Some data => ret {| res_status := 200; res_body := Payload data |}
     | None =>
         try_catch (fetch_fresh now)
           (fun error =>
              ret {| res_status := 500;
                     res_body := InternalServerError "Internal Server Error" error |})
     end)%js.

(** One invocation against the module state [c]: the response, the module
    state it leaves, and the requests it issued. *)
Definition invoke (req_method : string) (w : World) (c : Cache)
    : option HttpResult * Cache * list Request :=
  let '(out, r) := handler req_method w {| cache := c; ticks := 0; sent := [] |} in
  (match out with inr res => Some res | inl _ => None end, cache r, sent r).

End Handler.

End Multi.

(** ** The single-device handler, [api/temp_hum.js] *)

Module Single.

(** The success payload: the temperature is the quotient of the raw value
    by ten, a double that is not floored; the humidity is the raw value. *)
Record Success : Type := mkSuccess {
  deviceId : string;
  temperature : Q;
  humidity : Z;
  unit_ : string;
  fullTuyaResponse : Json
}.

Inductive Body : Type :=
| EndNoBody
| ErrorMessage (error message : string)
| UpstreamFailure (error : string) (details : Json)
| DataNotFound (message : string) (fullResponse : Json)
| Reading (payload : Success)
| InternalServerError (error : string) (thrown : Exn).

Record HttpResult : Type := mkHttpResult {
  res_status : Z;
  res_body : Body
}.

Section Handler.

Variable crypto : Crypto.
Variable env : Env.

Definition DEVICE_ID : string := ENV_DEVICE_ID env.

(** Lines 134 to 153: from the parsed device body to the response. *)
Definition respond (data : Json) : HttpResult :=
  let properties := chain (result data) properties in
  let temperature := chain (chain properties (JS.find is_temperature)) value in
  let humidity := chain (chain properties (JS.find is_humidity)) value in
  match temperature, humidity with
  | Some temperature, Some humidity =>
      {| res_status := 200;
         res_body := Reading {| deviceId := DEVICE_ID;
                                temperature := JS.div temperature 10;
                                humidity := humidity;
                                unit_ := "celsius";
                                fullTuyaResponse := data |} |}
  | _, _ =>
      {| res_status := 404;
         res_body := DataNotFound
                       "Temperature or humidity data not found for this device. Check device status codes."
                       data |}
  end.

Definition handler (req_method : string) : M HttpResult :=
  if JS.seq req_method "OPTIONS" then
    ret {| res_status := 200; res_body := EndNoBody |}
  else if negb (JS.seq req_method "GET") then
    ret {| res_status := 405;
           res_body := ErrorMessage "Method Not Allowed"
                         "Only GET requests are supported." |}
  else
    try_catch
      (tokenTimestamp <- Date_now ;;
       let tokenTimestamp := JS.toString tokenTimestamp in
       pending <- fetch (tokenRequest crypto env tokenTimestamp) ;;
       tokenResponse <- await pending ;;
       tokenData <- await (response_json tokenResponse) ;;
       if negb (ok tokenResponse) || negb (success tokenData) then
         ret {| res_status := status tokenResponse;
                res_body := UpstreamFailure
                              "Failed to fetch access token from Tuya API" tokenData |}
       else
         match result tokenData with
         | None =>
             throw (TypeError "Cannot read properties of undefined (reading 'access_token')")
         | Some token_result =>
             let accessToken := JS.coerce (access_token token_result) in
             apiTimestamp <- Date_now ;;
             let apiTimestamp := JS.toString apiTimestamp in
             pending <- fetch (deviceRequest crypto env accessToken apiTimestamp DEVICE_ID) ;;
             response <- await pending ;;
             data <- await (response_json response) ;;
             if negb (ok response) || negb (success data) then
               ret {| res_status := status response;
                      res_body := UpstreamFailure
                                    "Failed to fetch data from Tuya API" data |}
             else ret (respond data)
         end)%js
      (fun error =>
         ret {| res_status := 500;
                res_body := InternalServerError "Internal Server Error" error |}).

Definition invoke (req_method : string) (w : World)
    : option HttpResult * list Request :=
  let '(out, r) :=
    handler req_method w {| cache := initial_cache; ticks := 0; sent := [] |} in
  (match out with inr res => Some res | inl _ => None end, sent r).

End Handler.

End Single.

(** ** The multi-device handler on the raw process environment

    [Env] above holds the four variables as the strings the handlers work
    with.  [process.env] itself gives a string or [undefined] for each.  An
    undefined key or device id is turned into the text "undefined" wherever
    it is concatenated, but an undefined secret makes [crypto.createHmac]
    throw.  The handler is written out once more on the raw environment,
    with the signature computed in place as the source has it. *)

Record ProcessEnv : Type := mkProcessEnv {
  env_CLIENT_KEY : option string;
  env_CLIENT_SECRET : option string;
  env_DEVICE_ID : option string;
  env_WINE_DEVICE_ID : option string
}.

(** The environment as the handlers see it once the secret is known to be
    set. *)
Definition resolved (penv : ProcessEnv) (secret : string) : Env :=
  {| CLIENT_KEY := JS.coerce (env_CLIENT_KEY penv);
     CLIENT_SECRET := secret;
     ENV_DEVICE_ID := JS.coerce (env_DEVICE_ID penv);
     WINE_DEVICE_ID := JS.coerce (env_WINE_DEVICE_ID penv) |}.

Module MultiProcess.

Section Handler.

Variable crypto : Crypto.
Variable penv : ProcessEnv.

Definition TUYA_ACCESS_ID : option string := env_CLIENT_KEY penv.
Definition TUYA_ACCESS_SECRET : option string := env_CLIENT_SECRET penv.
Definition DEVICE_ID : option string := env_DEVICE_ID penv.
Definition DEVICE_ID_2 : option string := env_WINE_DEVICE_ID penv.

(** [crypto.createHmac('sha256', key).update(msg, 'utf8').digest('hex')]:
    [createHmac] throws a TypeError when the key is undefined. *)
Definition createHmac_digest (key : option string) (msg : string) : M string :=
  match key with
  | None =>
      throw (TypeError
               "The key argument must be of type string or an instance of ArrayBuffer, Buffer, TypedArray, DataView, KeyObject, or CryptoKey. Received undefined")
  | Some k => ret (hmac_sha256_hex crypto k msg)
  end.

(** An async function: what its body throws before the first [await]
    rejects the promise it returns instead of reaching the caller. *)
Definition async {A : Type} (body : M (Promise A)) : M (Promise A) :=
  fun w r =>
    match body w r with
    | (inl e, r') => (inr (throw e), r')
    | (inr p, r') => (inr p, r')
    end.

Definition fetchDeviceData (accessToken apiTimestamp : string)
    (deviceId : option string) : M (Promise Json) :=
  async
    (let path := apiPath (JS.coerce deviceId) in
     let stringToSign := stringToSignForApiRequest crypto (JS.coerce deviceId) in
     let message :=
       JS.coerce TUYA_ACCESS_ID ++ accessToken ++ apiTimestamp ++ nonce
         ++ stringToSign in
     digest <- createHmac_digest TUYA_ACCESS_SECRET message ;;
     let apiSign := JS.toUpperCase digest in
     pending <- fetch {| url := TUYA_API_ENDPOINT ++ path;
                         method := apiMethod;
                         h_client_id := JS.coerce TUYA_ACCESS_ID;
                         h_access_token := Some accessToken;
                         h_sign := apiSign;
                         h_sign_method := "HMAC-SHA256";
                         h_t := apiTimestamp;
                         h_nonce := nonce |} ;;
     ret (response <- await pending ;;
          data <- await (response_json response) ;;
          if negb (ok response) || negb (success data)
          then throw (DeviceError (JS.coerce deviceId) data)
          else ret data))%js.

Definition fetch_fresh (now : Z) : M HttpResult :=
  (tokenTimestamp <- Date_now ;;
   let tokenTimestamp := JS.toString tokenTimestamp in
   let message :=
     JS.coerce TUYA_ACCESS_ID ++ tokenTimestamp ++ nonce
       ++ stringToSignForToken crypto in
   digest <- createHmac_digest TUYA_ACCESS_SECRET message ;;
   let tokenSign := JS.toUpperCase digest in
   pending <- fetch {| url := TUYA_API_ENDPOINT ++ tokenPath;
                       method := tokenMethod;
                       h_client_id := JS.coerce TUYA_ACCESS_ID;
                       h_access_token := None;
                       h_sign := tokenSign;
                       h_sign_method := "HMAC-SHA256";
                       h_t := tokenTimestamp;
                       h_nonce := nonce |} ;;
   tokenResponse <- await pending ;;
   tokenData <- await (response_json tokenResponse) ;;
   if negb (ok tokenResponse) || negb (success tokenData) then
     ret {| res_status := status tokenResponse;
            res_body := TokenFailure "Failed to fetch access token from Tuya API"
                          tokenData |}
   else
     match result tokenData with
     | None =>
         throw (TypeError "Cannot read properties of undefined (reading 'access_token')")
     | Some token_result =>
         let accessToken := JS.coerce (access_token token_result) in
         apiTimestamp <- Date_now ;;
         let apiTimestamp := JS.toString apiTimestamp in
         promise1 <- fetchDeviceData accessToken apiTimestamp DEVICE_ID ;;
         promise2 <- fetchDeviceData accessToken apiTimestamp DEVICE_ID_2 ;;
         both <- await (Promise_all2 promise1 promise2) ;;
         let device1Data := fst both in
         let device2Data := snd both in
         let device1SensorData :=
           Multi.extractSensorData device1Data (JS.coerce DEVICE_ID) in
         let device2SensorData :=
           Multi.extractSensorData device2Data (JS.coerce DEVICE_ID_2) in
         match device1SensorData, device2SensorData with
         | Some reading1, Some reading2 =>
             let responseData := Multi.responseData_of reading1 reading2 in
             Multi.cache_put responseData now ;;;
             ret {| res_status := 200; res_body := Payload responseData |}
         | _, _ =>
             ret {| res_status := 404;
                    res_body :=
                      DataNotFound
                        "Temperature or humidity data not found for one or both devices. Check device status codes."
                        device1SensorData device2SensorData
                        (device1Data, device2Data) |}
         end
     end)%js.

Definition handler (req_method : string) : M HttpResult :=
  if JS.seq req_method "OPTIONS" then
    ret {| res_status := 200; res_body := EndNoBody |}
  else if negb (JS.seq req_method "GET") then
    ret {| res_status := 405;
           res_body := ErrorMessage "Method Not Allowed"
                         "Only GET requests are supported." |}
  else
    (now <- Date_now ;;
     c <- read_cache ;;
     match Multi.cache_get c now with
     | Some data => ret {| res_status := 200; res_body := Payload data |}
     | None =>
         try_catch (fetch_fresh now)
           (fun error =>
              ret {| res_status := 500;
                     res_body := InternalServerError "Internal Server Error" error |})
     end)%js.

Definition invoke (req_method : string) (w : World) (c : Cache)
    : option HttpResult * Cache * list Request :=
  let '(out, r) := handler req_method w {| cache := c; ticks := 0; sent := [] |} in
  (match out with inr res => Some res | inl _ => None end, cache r, sent r).

End Handler.

End MultiProcess.

(** ** Node's [crypto], concretely

    The library is not part of the repository.  SHA-256 is written here as
    FIPS 180-4 defines it and HMAC as RFC 2104 does, on bytes held in [Z],
    so that the handlers can be run on concrete inputs. *)

Module NodeCrypto.

Definition mask32 : Z := 0xffffffff.

Definition trunc32 (x : Z) : Z := Z.land x mask32.

Definition add32 (x y : Z) : Z := trunc32 (x + y).

Definition rotr (n x : Z) : Z :=
  Z.lor (Z.shiftr x n) (trunc32 (Z.shiftl x (32 - n))).

Definition not32 (x : Z) : Z := Z.lxor x mask32.

Definition Ch (x y z : Z) : Z := Z.lxor (Z.land x y) (Z.land (not32 x) z).

Definition Maj (x y z : Z) : Z :=
  Z.lxor (Z.lxor (Z.land x y) (Z.land x z)) (Z.land y z).

Definition bigSigma0 (x : Z) : Z := Z.lxor (Z.lxor (rotr 2 x) (rotr 13 x)) (rotr 22 x).
Definition bigSigma1 (x : Z) : Z := Z.lxor (Z.lxor (rotr 6 x) (rotr 11 x)) (rotr 25 x).
Definition smallSigma0 (x : Z) : Z := Z.lxor (Z.lxor (rotr 7 x) (rotr 18 x)) (Z.shiftr x 3).
Definition smallSigma1 (x : Z) : Z := Z.lxor (Z.lxor (rotr 17 x) (rotr 19 x)) (Z.shiftr x 10).

(** The first [wanted] primes, by trial division against those found. *)
Fixpoint sieve (fuel : nat) (n : Z) (wanted : nat) (found : list Z) : list Z :=
  match fuel, wanted with
  | S fuel', S wanted' =>
      if forallb (fun p => negb (n mod p =? 0)) found
      then sieve fuel' (n + 1) wanted' (n :: found)
      else sieve fuel' (n + 1) wanted found
  | _, _ => rev found
  end.

Definition first_primes (wanted : nat) : list Z := sieve 400 2 wanted [].

(** The integer cube root, one bit at a time from bit [k - 1] down. *)
Fixpoint icbrt_bits (k : nat) (n r : Z) : Z :=
  match k with
  | O => r
  | S k' =>
      let candidate := r + 2 ^ Z.of_nat k' in
      icbrt_bits k' n (if candidate * candidate * candidate <=? n then candidate else r)
  end.

Definition icbrt (n : Z) : Z := icbrt_bits 40 n 0.

(** The first 32 bits of the fractional parts of the cube roots of the
    first 64 primes. *)
Definition round_constants : list Z :=
  Eval vm_compute in
    map (fun p => trunc32 (icbrt (p * 2 ^ 96))) (first_primes 64).

(** The first 32 bits of the fractional parts of the square roots of the
    first 8 primes. *)
Definition initial_hash : list Z :=
  Eval vm_compute in
    map (fun p => trunc32 (Z.sqrt (p * 2 ^ 64))) (first_primes 8).

(** Bytes of a string, and back. *)
Fixpoint bytes_of_string (s : string) : list Z :=
  match s with
  | EmptyString => []
  | String c r => Z.of_nat (nat_of_ascii c) :: bytes_of_string r
  end.

(** Big-endian bytes of the low [8 * n] bits of [x]. *)
Fixpoint be_bytes (n : nat) (x : Z) : list Z :=
  match n with
  | O => []
  | S m => Z.land (Z.shiftr x (8 * Z.of_nat m)) 0xff :: be_bytes m x
  end.

(** Padding: the bit 1, zeros up to 56 modulo 64, the bit length on 8 bytes. *)
Definition pad (msg : list Z) : list Z :=
  let len := Z.of_nat (List.length msg) in
  let zeros := Z.to_nat ((55 - len) mod 64) in
  msg ++ [0x80] ++ List.repeat 0 zeros ++ be_bytes 8 (8 * len).

(** Big-endian 32-bit words of a byte list whose length is a multiple of 4. *)
Fixpoint words_of_bytes (fuel : nat) (bs : list Z) : list Z :=
  match fuel, bs with
  | S f, b0 :: b1 :: b2 :: b3 :: rest =>
      (Z.shiftl b0 24 + Z.shiftl b1 16 + Z.shiftl b2 8 + b3)
        :: words_of_bytes f rest
  | _, _ => []
  end.

(** The message schedule, most recent word first. *)
Fixpoint extend_schedule (n : nat) (rev_w : list Z) : list Z :=
  match n with
  | O => rev_w
  | S m =>
      let w2 := nth 1 rev_w 0 in
      let w7 := nth 6 rev_w 0 in
      let w15 := nth 14 rev_w 0 in
      let w16 := nth 15 rev_w 0 in
      extend_schedule m
        (add32 (add32 (smallSigma1 w2) w7) (add32 (smallSigma0 w15) w16) :: rev_w)
  end.

Definition schedule (block : list Z) : list Z :=
  rev (extend_schedule 48 (rev block)).

Record Regs : Type := mkRegs { ra : Z; rb : Z; rc : Z; rd : Z; re : Z; rf : Z; rg : Z; rh : Z }.

Definition round (s : Regs) (kw : Z * Z) : Regs :=
  let t1 := add32 (add32 (add32 (rh s) (bigSigma1 (re s))) (Ch (re s) (rf s) (rg s)))
                  (add32 (fst kw) (snd kw)) in
  let t2 := add32 (bigSigma0 (ra s)) (Maj (ra s) (rb s) (rc s)) in
  {| ra := add32 t1 t2; rb := ra s; rc := rb s; rd := rc s;
     re := add32 (rd s) t1; rf := re s; rg := rf s; rh := rg s |}.

Definition regs_of (h : list Z) : Regs :=
  {| ra := nth 0 h 0; rb := nth 1 h 0; rc := nth 2 h 0; rd := nth 3 h 0;
     re := nth 4 h 0; rf := nth 5 h 0; rg := nth 6 h 0; rh := nth 7 h 0 |}.

Definition list_of (s : Regs) : list Z :=
  [ra s; rb s; rc s; rd s; re s; rf s; rg s; rh s].

Definition compress (h : list Z) (block : list Z) : list Z :=
  let s := fold_left round (combine round_constants (schedule block)) (regs_of h) in
  map (fun p => add32 (fst p) (snd p)) (combine h (list_of s)).

Fixpoint blocks (fuel : nat) (ws : list Z) : list (list Z) :=
  match fuel, ws with
  | _, [] => []
  | O, _ => []
  | S f, _ => firstn 16 ws :: blocks f (skipn 16 ws)
  end.

Definition sha256_bytes (msg : list Z) : list Z :=
  let padded := pad msg in
  let ws := words_of_bytes (List.length padded) padded in
  let h := fold_left compress (blocks (List.length ws) ws) initial_hash in
  flat_map (be_bytes 4) h.

Definition hex_digit (d : Z) : ascii :=
  if d <? 10 then ascii_of_nat (Z.to_nat (48 + d)) else ascii_of_nat (Z.to_nat (87 + d)).

Fixpoint hex (bs : list Z) : string :=
  match bs with
  | [] => EmptyString
  | b :: rest => String (hex_digit (Z.shiftr b 4)) (String (hex_digit (Z.land b 15)) (hex rest))
  end.

Definition sha256_hex (s : string) : string := hex (sha256_bytes (bytes_of_string s)).

Definition block_size : nat := 64.

Definition hmac_key (key : list Z) : list Z :=
  let k := if (block_size <? List.length key)%nat then sha256_bytes key else key in
  k ++ List.repeat 0 (block_size - List.length k).

Definition hmac_sha256_bytes (key msg : list Z) : list Z :=
  let k := hmac_key key in
  let inner := sha256_bytes (map (Z.lxor 0x36) k ++ msg) in
  sha256_bytes (map (Z.lxor 0x5c) k ++ inner).

Definition hmac_sha256_hex (key msg : string) : string :=
  hex (hmac_sha256_bytes (bytes_of_string key) (bytes_of_string msg)).

End NodeCrypto.

Definition node_crypto : Crypto :=
  {| sha256_hex := NodeCrypto.sha256_hex;
     hmac_sha256_hex := NodeCrypto.hmac_sha256_hex |}.

(** ** Vocabulary for the properties of one invocation *)

(** A call failed: [fetch] or [json()] threw, the status is not 2xx, or the
    body's [success] flag is false. *)
Definition call_failed (o : FetchOutcome) : bool :=
  match o with
  | NetworkError _ => true
  | Received response =>
      match json response with
      | inl _ => true
      | inr data => negb (ok response) || negb (success data)
      end
  end.

(** How the promise of [fetchDeviceData deviceId] settles on an outcome. *)
Definition settle (deviceId : string) (o : FetchOutcome) : Exn + Json :=
  match o with
  | NetworkError msg => inl (FetchFailed msg)
  | Received response =>
      match json response with
      | inl msg => inl (FetchFailed msg)
      | inr data =>
          if negb (ok response) || negb (success data)
          then inl (DeviceError deviceId data)
          else inr data
      end
  end.

(** How [Promise.all] over two settled promises settles. *)
Definition join_all (second_first : bool) (a b : Exn + Json) : Exn + (Json * Json) :=
  match a, b with
  | inr x, inr y => inr (x, y)
  | inr _, inl e2 => inl e2
  | inl e1, inr _ => inl e1
  | inl e1, inl e2 => inl (if second_first then e2 else e1)
  end.

Section Invocation.

Variable crypto : Crypto.
Variable env : Env.
Variable w : World.

(** The first clock reading, taken before the cache check. *)
Definition sampled_now : Z := clock w 0.

(** The token request, stamped with the second clock reading, and what the
    network answers to it. *)
Definition token_request : Request :=
  tokenRequest crypto env (JS.toString (clock w 1)).

Definition token_outcome : FetchOutcome := net w 0 token_request.

(** The token call granted [accessToken]. *)
Definition token_granted (accessToken : string) : Prop :=
  exists response tokenData token_result,
    token_outcome = Received response /\
    json response = inr tokenData /\
    ok response = true /\
    success tokenData = true /\
    result tokenData = Some token_result /\
    accessToken = JS.coerce (access_token token_result).

(** The two device requests, both stamped with the third clock reading, and
    what the network answers to them. *)
Definition device1_request (accessToken : string) : Request :=
  deviceRequest crypto env accessToken (JS.toString (clock w 2))
    (Multi.DEVICE_ID env).

Definition device2_request (accessToken : string) : Request :=
  deviceRequest crypto env accessToken (JS.toString (clock w 2))
    (Multi.DEVICE_ID_2 env).

Definition device1_outcome (accessToken : string) : FetchOutcome :=
  net w 1 (device1_request accessToken).

Definition device2_outcome (accessToken : string) : FetchOutcome :=
  net w 2 (device2_request accessToken).

(** The settled batch of the two device queries. *)
Definition batch (accessToken : string) : Exn + (Json * Json) :=
  join_all (second_rejects_first w)
    (settle (Multi.DEVICE_ID env) (device1_outcome accessToken))
    (settle (Multi.DEVICE_ID_2 env) (device2_outcome accessToken)).

Definition internal_error (e : Exn) : HttpResult :=
  {| res_status := 500;
     res_body := InternalServerError "Internal Server Error" e |}.

(** The state machine of one invocation on the module state [c]: each rule
    is one path through the handler, with the response, the module state
    left behind and the requests issued. *)
Inductive Invocation (req_method : string) (c : Cache)
    : HttpResult -> Cache -> list Request -> Prop :=
| Inv_options :
    req_method = "OPTIONS" ->
    Invocation req_method c {| res_status := 200; res_body := EndNoBody |} c []
| Inv_not_allowed :
    req_method <> "OPTIONS" -> req_method <> "GET" ->
    Invocation req_method c
      {| res_status := 405;
         res_body := ErrorMessage "Method Not Allowed"
                       "Only GET requests are supported." |} c []
| Inv_hit data :
    req_method = "GET" ->
    Multi.cache_get c sampled_now = Some data ->
    Invocation req_method c {| res_status := 200; res_body := Payload data |} c []
| Inv_token_threw msg :
    req_method = "GET" ->
    Multi.cache_get c sampled_now = None ->
    token_outcome = NetworkError msg ->
    Invocation req_method c (internal_error (FetchFailed msg)) c [token_request]
| Inv_token_unparsed response msg :
    req_method = "GET" ->
    Multi.cache_get c sampled_now = None ->
    token_outcome = Received response ->
    json response = inl msg ->
    Invocation req_method c (internal_error (FetchFailed msg)) c [token_request]
| Inv_token_refused response tokenData :
    req_method = "GET" ->
    Multi.cache_get c sampled_now = None ->
    token_outcome = Received response ->
    json response = inr tokenData ->
    negb (ok response) || negb (success tokenData) = true ->
    Invocation req_method c
      {| res_status := status response;
         res_body := TokenFailure "Failed to fetch access token from Tuya API"
                       tokenData |} c [token_request]
| Inv_token_without_result response tokenData :
    req_method = "GET" ->
    Multi.cache_get c sampled_now = None ->
    token_outcome = Received response ->
    json response = inr tokenData ->
    negb (ok response) || negb (success tokenData) = false ->
    result tokenData = None ->
    Invocation req_method c
      (internal_error
         (TypeError "Cannot read properties of undefined (reading 'access_token')"))
      c [token_request]
| Inv_batch_rejected accessToken e :
    req_method = "GET" ->
    Multi.cache_get c sampled_now = None ->
    token_granted accessToken ->
    batch accessToken = inl e ->
    Invocation req_method c (internal_error e) c
      [token_request; device1_request accessToken; device2_request accessToken]
| Inv_incomplete accessToken device1Data device2Data :
    req_method = "GET" ->
    Multi.cache_get c sampled_now = None ->
    token_granted accessToken ->
    batch accessToken = inr (device1Data, device2Data) ->
    Multi.extractSensorData device1Data (Multi.DEVICE_ID env) = None \/
    Multi.extractSensorData device2Data (Multi.DEVICE_ID_2 env) = None ->
    Invocation req_method c
      {| res_status := 404;
         res_body :=
           DataNotFound
             "Temperature or humidity data not found for one or both devices. Check device status codes."
             (Multi.extractSensorData device1Data (Multi.DEVICE_ID env))
             (Multi.extractSensorData device2Data (Multi.DEVICE_ID_2 env))
             (device1Data, device2Data) |}
      c
      [token_request; device1_request accessToken; device2_request accessToken]
| Inv_stored accessToken device1Data device2Data reading1 reading2 :
    req_method = "GET" ->
    Multi.cache_get c sampled_now = None ->
    token_granted accessToken ->
    batch accessToken = inr (device1Data, device2Data) ->
    Multi.extractSensorData device1Data (Multi.DEVICE_ID env) = Some reading1 ->
    Multi.extractSensorData device2Data (Multi.DEVICE_ID_2 env) = Some reading2 ->
    Invocation req_method c
      {| res_status := 200;
         res_body := Payload (Multi.responseData_of reading1 reading2) |}
      {| cachedData := Some (Multi.responseData_of reading1 reading2);
         lastFetchTimestamp := sampled_now |}
      [token_request; device1_request accessToken; device2_request accessToken].

End Invocation.

(** A request is signed as section 4.1 of the specification prescribes:
    its [sign] header is the specified signature over its own method, path,
    timestamp, nonce and, when it carries one, access token. *)
Definition signed_as_specified (crypto : Crypto) (env : Env) (req : Request) : Prop :=
  exists urlPath,
    url req = TUYA_API_ENDPOINT ++ urlPath /\
    h_sign req =
      spec_signature crypto (CLIENT_SECRET env) (CLIENT_KEY env)
        (h_access_token req) (h_t req) (h_nonce req) (method req)
        EmptyString urlPath.

(** The raw values [extractSensorData] reads out of a device body. *)
Definition raw_temperature (data : Json) : option Z :=
  chain (chain (chain (result data) properties) (JS.find is_temperature)) value.

Definition raw_humidity (data : Json) : option Z :=
  chain (chain (chain (result data) properties) (JS.find is_humidity)) value.

(** [p] is the first entry of [l], in list order, that satisfies [f]. *)
Definition first_match {A : Type} (f : A -> bool) (l : list A) (p : A) : Prop :=
  exists before after,
    l = (before ++ p :: after)%list /\
    Forall (fun q => f q = false) before /\
    f p = true.

(** ** Sample inputs *)

(** A successful device body holding the given properties. *)
Definition device_body (ps : list Property) : Json :=
  {| success := true;
     result := Some {| access_token := None; properties := Some ps |} |}.

(** A successful token body. *)
Definition token_body (tok : string) : Json :=
  {| success := true;
     result := Some {| access_token := Some tok; properties := None |} |}.

Definition entry (c : string) (v : Z) : Property :=
  {| code := c; value := Some v |}.

Definition sample_env : Env :=
  {| CLIENT_KEY := "client-id";
     CLIENT_SECRET := "client-secret";
     ENV_DEVICE_ID := "D1";
     WINE_DEVICE_ID := "D2" |}.

Definition sample_clock (n : nat) : Z := 1700000000000 + 400 * Z.of_nat n.

(** The end-to-end scenario of the specification: token [T1], then two
    device bodies, the first with a humidity above the cap. *)
Definition sample_world : World :=
  {| clock := sample_clock;
     net := fun n _ =>
       match n with
       | O => Received {| status := 200; json := inr (token_body "T1") |}
       | S O =>
           Received {| status := 200;
                       json := inr (device_body [entry "temp_current" 235;
                                                 entry "humidity_value" 70]) |}
       | _ =>
           Received {| status := 200;
                       json := inr (device_body [entry "va_humidity" 55;
                                                 entry "va_temperature" 128]) |}
       end;
     second_rejects_first := false |}.

(** The same, except that the second device query comes back with
    [success: false]. *)
Definition failing_world : World :=
  {| clock := sample_clock;
     net := fun n _ =>
       match n with
       | O => Received {| status := 200; json := inr (token_body "T1") |}
       | S O =>
           Received {| status := 200;
                       json := inr (device_body [entry "temp_current" 235;
                                                 entry "humidity_value" 70]) |}
       | _ =>
           Received {| status := 200;
                       json := inr {| success := false; result := None |} |}
       end;
     second_rejects_first := false |}.

(** The same as [sample_world], except that the second device reports no
    humidity. *)
Definition incomplete_world : World :=
  {| clock := sample_clock;
     net := fun n _ =>
       match n with
       | O => Received {| status := 200; json := inr (token_body "T1") |}
       | S O =>
           Received {| status := 200;
                       json := inr (device_body [entry "temp_current" 235;
                                                 entry "humidity_value" 70]) |}
       | _ =>
           Received {| status := 200;
                       json := inr (device_body [entry "va_temperature" 128]) |}
       end;
     second_rejects_first := false |}.

(** A world whose token call is refused. *)
Definition refusing_world : World :=
  {| clock := sample_clock;
     net := fun _ _ =>
       Received {| status := 401;
                   json := inr {| success := false; result := None |} |};
     second_rejects_first := false |}.

Definition sample_reading1 : Reading := {| temperature := 23; humidity := 65 |}.
Definition sample_reading2 : Reading := {| temperature := 12; humidity := 55 |}.

Definition sample_payload : ResponseData :=
  Multi.responseData_of sample_reading1 sample_reading2.

(** A module state holding [sample_payload], fetched one minute before the
    first reading of [sample_clock]. *)
Definition warm_cache : Cache :=
  {| cachedData := Some sample_payload;
     lastFetchTimestamp := sample_clock 0 - 60000 |}.

(** A module state holding [sample_payload] that has just gone stale at the
    first reading of [sample_clock]. *)
Definition stale_cache : Cache :=
  {| cachedData := Some sample_payload;
     lastFetchTimestamp := sample_clock 0 - 300000 |}.

(** [sample_world] with a slow network: the token comes back after one
    second and the device queries are stamped four minutes later. *)
Definition slow_world : World :=
  {| clock := fun n =>
       match n with
       | O => 1700000000000
       | S O => 1700000001000
       | _ => 1700000240000
       end;
     net := net sample_world;
     second_rejects_first := false |}.

(** ** Vocabulary for the single-device handler *)

Section SingleInvocation.

Variable crypto : Crypto.
Variable env : Env.
Variable w : World.

(** The single-device handler takes no reading before the [try] block: its
    token request is stamped with the first clock reading and its device
    request with the second. *)
Definition single_token_request : Request :=
  tokenRequest crypto env (JS.toString (clock w 0)).

Definition single_token_outcome : FetchOutcome := net w 0 single_token_request.

Definition single_token_granted (accessToken : string) : Prop :=
  exists response tokenData token_result,
    single_token_outcome = Received response /\
    json response = inr tokenData /\
    ok response = true /\
    success tokenData = true /\
    result tokenData = Some token_result /\
    accessToken = JS.coerce (access_token token_result).

Definition single_device_request (accessToken : string) : Request :=
  deviceRequest crypto env accessToken (JS.toString (clock w 1))
    (Single.DEVICE_ID env).

Definition single_device_outcome (accessToken : string) : FetchOutcome :=
  net w 1 (single_device_request accessToken).

End SingleInvocation.

(** The answer of the single-device handler's catch block. *)
Definition single_internal_error (e : Exn) : Single.HttpResult :=
  {| Single.res_status := 500;
     Single.res_body := Single.InternalServerError "Internal Server Error" e |}.

(** ** Vocabulary for runs of invocations and for stored payloads *)

(** Invocations served one after the other by the same process, each with
    its method and the world it meets; the module state is handed on. *)
Fixpoint serve (crypto : Crypto) (env : Env) (calls : list (string * World))
    (c : Cache) : list (option HttpResult) * Cache :=
  match calls with
  | [] => ([], c)
  | (req_method, w) :: rest =>
      let '(out, c', _) := Multi.invoke crypto env req_method w c in
      let '(outs, c'') := serve crypto env rest c' in
      (out :: outs, c'')
  end.

(** An entry as the multi-device handler builds it: capped humidity and
    the unit it hard-codes. *)
Definition entry_ok (e : Entry) : Prop :=
  humidity (reading e) <= 65 /\ unit_ e = "celsius".

Definition payload_ok (p : ResponseData) : Prop :=
  entry_ok (device p) /\ entry_ok (wine_device p).

(** The module state is either the one of a freshly loaded module or holds
    a payload the handler could have built. *)
Definition cache_ok (c : Cache) : Prop :=
  match cachedData c with
  | Some p => payload_ok p
  | None => lastFetchTimestamp c = 0
  end.

(** The entries [extractSensorData] can look at. *)
Definition relevant (p : Property) : bool := is_temperature p || is_humidity p.

(** Reading a decimal string back, the inverse of [JS.toString]. *)
Definition parse_decimal (s : string) : option Z :=
  option_map Z.of_int (NilZero.int_of_string s).

(** A request as either handler sends it: a GET to the fixed endpoint,
    identified by the client key, with the fixed signing method and the
    empty nonce. *)
Definition on_the_wire (env : Env) (req : Request) : Prop :=
  method req = "GET" /\
  String.prefix TUYA_API_ENDPOINT (url req) = true /\
  h_client_id req = CLIENT_KEY env /\
  h_sign_method req = "HMAC-SHA256" /\
  h_nonce req = EmptyString.

(** ** Further sample inputs *)

(** The token call answers 200 with [success: false]. *)
Definition soft_refusing_world : World :=
  {| clock := sample_clock;
     net := fun _ _ =>
       Received {| status := 200;
                   json := inr {| success := false; result := None |} |};
     second_rejects_first := false |}.

(** No network at all. *)
Definition offline_world : World :=
  {| clock := sample_clock;
     net := fun _ _ => NetworkError "ECONNREFUSED";
     second_rejects_first := false |}.

(** The token call succeeds without a [result]. *)
Definition hollow_token_world : World :=
  {| clock := sample_clock;
     net := fun _ _ =>
       Received {| status := 200;
                   json := inr {| success := true; result := None |} |};
     second_rejects_first := false |}.

(** The token call succeeds with a [result] that has no [access_token];
    the device queries then succeed as in [sample_world]. *)
Definition tokenless_world : World :=
  {| clock := sample_clock;
     net := fun n req =>
       match n with
       | O => Received {| status := 200;
                          json := inr {| success := true;
                                         result := Some {| access_token := None;
                                                           properties := None |} |} |}
       | _ => net sample_world n req
       end;
     second_rejects_first := false |}.

(** Both device queries fail, the second with a 503, and the second
    rejection is the first to arrive. *)
Definition doubly_failing_world : World :=
  {| clock := sample_clock;
     net := fun n _ =>
       match n with
       | O => Received {| status := 200; json := inr (token_body "T1") |}
       | S O => Received {| status := 200;
                            json := inr {| success := false; result := None |} |}
       | _ => Received {| status := 503;
                          json := inr {| success := true; result := None |} |}
       end;
     second_rejects_first := true |}.

(** [sample_world] six minutes later, and four minutes later. *)
Definition later_world (delay : Z) : World :=
  {| clock := fun n => sample_clock n + delay;
     net := net sample_world;
     second_rejects_first := false |}.

(** For the single-device handler: the device query is refused with a 429. *)
Definition throttled_world : World :=
  {| clock := sample_clock;
     net := fun n _ =>
       match n with
       | O => Received {| status := 200; json := inr (token_body "T1") |}
       | _ => Received {| status := 429;
                          json := inr {| success := false; result := None |} |}
       end;
     second_rejects_first := false |}.

(** A property list with entries the extraction does not look at. *)
Definition noisy_properties : list Property :=
  [entry "battery_percentage" 88; entry "va_temperature" 128;
   {| code := "temp_unit_convert"; value := None |};
   entry "va_humidity" 55; entry "temp_current" 990].

(** The process environment of the samples, and the same without the
    secret. *)
Definition sample_process_env : ProcessEnv :=
  {| env_CLIENT_KEY := Some "client-id";
     env_CLIENT_SECRET := Some "client-secret";
     env_DEVICE_ID := Some "D1";
     env_WINE_DEVICE_ID := Some "D2" |}.

Definition secretless_process_env : ProcessEnv :=
  {| env_CLIENT_KEY := Some "client-id";
     env_CLIENT_SECRET := None;
     env_DEVICE_ID := Some "D1";
     env_WINE_DEVICE_ID := Some "D2" |}.

(** * Properties *)

(** ** The handler runs along exactly one rule of the state machine *)

Lemma seq_true_iff (a b : string) : JS.seq a b = true <-> a = b.
Proof. unfold JS.seq. apply String.eqb_eq. Qed.

Lemma seq_false_iff (a b : string) : JS.seq a b = false <-> a <> b.
Proof. unfold JS.seq. apply String.eqb_neq. Qed.

Ltac unfold_effects :=
  cbv beta iota delta
    [bind ret throw try_catch Date_now read_cache fetch await response_json
     Promise_all2 set_cachedData set_lastFetchTimestamp
     Multi.fetchDeviceData Multi.cache_put];
  cbn [cache ticks sent List.length app fst snd].

Lemma invoke_runs crypto env w req_method c :
  exists res c' log,
    Multi.invoke crypto env req_method w c = (Some res, c', log) /\
    Invocation crypto env w req_method c res c' log.
Proof.
  unfold Multi.invoke, Multi.handler.
  destruct (JS.seq req_method "OPTIONS") eqn:Hopt.
  { apply seq_true_iff in Hopt. do 3 eexists. split; [reflexivity|].
    now apply Inv_options. }
  apply seq_false_iff in Hopt.
  destruct (JS.seq req_method "GET") eqn:Hget; cbn [negb].
  2:{ apply seq_false_iff in Hget. do 3 eexists. split; [reflexivity|].
      now apply Inv_not_allowed. }
  apply seq_true_iff in Hget.
  unfold_effects.
  destruct (Multi.cache_get c (clock w 0)) as [data|] eqn:Hc.
  { do 3 eexists. split; [reflexivity|]. now apply Inv_hit. }
  unfold Multi.fetch_fresh. unfold_effects.
  fold (token_request crypto env w). fold (token_outcome crypto env w).
  destruct (token_outcome crypto env w) as [msg|response] eqn:Htok.
  { do 3 eexists. split; [reflexivity|]. now apply Inv_token_threw. }
  destruct (json response) as [msg|tokenData] eqn:Hjson.
  { do 3 eexists. split; [reflexivity|]. eapply Inv_token_unparsed; eauto. }
  destruct (negb (ok response) || negb (success tokenData)) eqn:Hok.
  { do 3 eexists. split; [reflexivity|]. eapply Inv_token_refused; eauto. }
  destruct (result tokenData) as [token_result|] eqn:Hres.
  2:{ do 3 eexists. split; [reflexivity|].
      eapply Inv_token_without_result; eauto. }
  unfold_effects.
  set (accessToken := JS.coerce (access_token token_result)).
  assert (Hgrant : token_granted crypto env w accessToken).
  { apply orb_false_iff in Hok. destruct Hok as [H1 H2].
    apply negb_false_iff in H1, H2.
    exists response, tokenData, token_result. repeat split; assumption. }
  fold (device1_request crypto env w accessToken).
  fold (device2_request crypto env w accessToken).
  fold (device1_outcome crypto env w accessToken).
  fold (device2_outcome crypto env w accessToken).
  assert (Hb : batch crypto env w accessToken
               = join_all (second_rejects_first w)
                   (settle (Multi.DEVICE_ID env)
                      (device1_outcome crypto env w accessToken))
                   (settle (Multi.DEVICE_ID_2 env)
                      (device2_outcome crypto env w accessToken)))
    by reflexivity.
  unfold settle in Hb.
  destruct (device1_outcome crypto env w accessToken) as [m1|resp1];
    [| destruct (json resp1) as [m1|data1];
       [| destruct (negb (ok resp1) || negb (success data1))]];
    (destruct (device2_outcome crypto env w accessToken) as [m2|resp2];
     [| destruct (json resp2) as [m2|data2];
        [| destruct (negb (ok resp2) || negb (success data2))]]);
    cbn [join_all] in Hb; cbn [fst snd];
    try (do 3 eexists; split;
         [reflexivity | eapply Inv_batch_rejected; eassumption]).
  destruct (Multi.extractSensorData data1 (Multi.DEVICE_ID env))
    as [reading1|] eqn:Hx1;
    [destruct (Multi.extractSensorData data2 (Multi.DEVICE_ID_2 env))
       as [reading2|] eqn:Hx2 |].
  - do 3 eexists. split; [reflexivity|]. eapply Inv_stored; eassumption.
  - do 3 eexists. split; [reflexivity|].
    rewrite <- Hx1, <- Hx2. eapply Inv_incomplete; try eassumption.
    right; assumption.
  - do 3 eexists. split; [reflexivity|].
    rewrite <- Hx1. eapply Inv_incomplete; try eassumption.
    left; assumption.
Qed.

Lemma invoke_inv crypto env w req_method c out c' log :
  Multi.invoke crypto env req_method w c = (out, c', log) ->
  exists res, out = Some res /\ Invocation crypto env w req_method c res c' log.
Proof.
  intros Hrun.
  destruct (invoke_runs crypto env w req_method c) as (res & c1 & log1 & Heq & Hinv).
  rewrite Heq in Hrun. inversion Hrun; subst.
  exists res. split; [reflexivity | exact Hinv].
Qed.

(** Known answers for the digest and the keyed digest. *)
Example sha256_of_empty :
  NodeCrypto.sha256_hex EmptyString
  = "e3b0c44298fc1c149afbf4c8996fb92427ae41e4649b934ca495991b7852b855".
Proof. vm_compute. reflexivity. Qed.

Example sha256_of_abc :
  NodeCrypto.sha256_hex "abc"
  = "ba7816bf8f01cfea414140de5dae2223b00361a396177a9cb410ff61f20015ad".
Proof. vm_compute. reflexivity. Qed.

Example hmac_rfc4231_case2 :
  NodeCrypto.hmac_sha256_hex "Jefe" "what do ya want for nothing?"
  = "5bdcc146bf60754e6a042426089575c75a003f089d2739839dec58b964ec3843".
Proof. vm_compute. reflexivity. Qed.

(** The end-to-end scenario of the specification, run with real
    signatures: the reading is normalized, stored under the first clock
    reading, and three signed requests leave. *)
Example end_to_end_scenario :
  Multi.invoke node_crypto sample_env "GET" sample_world initial_cache
  = (Some {| res_status := 200; res_body := Payload sample_payload |},
     {| cachedData := Some sample_payload; lastFetchTimestamp := sample_clock 0 |},
     [token_request node_crypto sample_env sample_world;
      device1_request node_crypto sample_env sample_world "T1";
      device2_request node_crypto sample_env sample_world "T1"]).
Proof. vm_compute. reflexivity. Qed.

Example end_to_end_signatures :
  map h_sign
    [token_request node_crypto sample_env sample_world;
     device1_request node_crypto sample_env sample_world "T1";
     device2_request node_crypto sample_env sample_world "T1"]
  = ["8CFC0F14E4DCF7EEFD60367EF8D95468C3E79A10337BC4C253DC62779F621684";
     "9002030103578B56199ED6C946111E9CCED6FE36A6EA5EA9E41A01DD24641812";
     "AE07CB5DD44AD5E5FE6720CB996815B2AE144EBA750FA31EC4D6A9109CA0AB0E"].
Proof. vm_compute. reflexivity. Qed.

(** ** Signer *)

Lemma tokenSign_spec crypto env tokenTimestamp :
  tokenSign crypto env tokenTimestamp =
  spec_signature crypto (CLIENT_SECRET env) (CLIENT_KEY env) None
    tokenTimestamp EmptyString "GET" EmptyString "/v1.0/token?grant_type=1".
Proof. reflexivity. Qed.

Lemma apiSign_spec crypto env accessToken apiTimestamp deviceId :
  apiSign crypto env accessToken apiTimestamp deviceId =
  spec_signature crypto (CLIENT_SECRET env) (CLIENT_KEY env) (Some accessToken)
    apiTimestamp EmptyString "GET" EmptyString
    ("/v2.0/cloud/thing/" ++ deviceId ++ "/shadow/properties").
Proof. reflexivity. Qed.

Lemma tokenRequest_signed crypto env tokenTimestamp :
  signed_as_specified crypto env (tokenRequest crypto env tokenTimestamp).
Proof.
  exists "/v1.0/token?grant_type=1". split; [reflexivity|].
  cbn [h_sign h_access_token h_t h_nonce method tokenRequest].
  apply tokenSign_spec.
Qed.

Lemma deviceRequest_signed crypto env accessToken apiTimestamp deviceId :
  signed_as_specified crypto env
    (deviceRequest crypto env accessToken apiTimestamp deviceId).
Proof.
  exists ("/v2.0/cloud/thing/" ++ deviceId ++ "/shadow/properties").
  split; [reflexivity|].
  cbn [h_sign h_access_token h_t h_nonce method deviceRequest].
  apply apiSign_spec.
Qed.

(** What leaves on the wire: nothing, the token request alone, or the token
    request followed by the two device requests. *)
Lemma Invocation_log crypto env w req_method c res c' log :
  Invocation crypto env w req_method c res c' log ->
  log = [] \/
  log = [token_request crypto env w] \/
  exists accessToken,
    token_granted crypto env w accessToken /\
    log = [token_request crypto env w;
           device1_request crypto env w accessToken;
           device2_request crypto env w accessToken].
Proof.
  intros H; inversion H; subst; auto; right; right; eauto.
Qed.

(** C1. The signature the handler computes is the upper-cased hex
    HMAC-SHA256, keyed with the secret, of
    clientId + [accessToken] + timestamp + nonce + method + LF
    + hex SHA-256 of the (empty) body + LF + LF + urlPath: without an access
    token for the token call, with it for the device-properties call; and
    every request an invocation issues carries that signature in its [sign]
    header, the token request with no [access_token] header and the device
    requests with one. *)
Theorem C1_signature_as_specified crypto env :
  (forall tokenTimestamp,
      tokenSign crypto env tokenTimestamp =
      JS.toUpperCase
        (hmac_sha256_hex crypto (CLIENT_SECRET env)
           (CLIENT_KEY env ++ tokenTimestamp ++ EmptyString ++ "GET" ++ JS.LF
              ++ sha256_hex crypto EmptyString ++ JS.LF ++ JS.LF
              ++ "/v1.0/token?grant_type=1"))) /\
  (forall accessToken apiTimestamp deviceId,
      apiSign crypto env accessToken apiTimestamp deviceId =
      JS.toUpperCase
        (hmac_sha256_hex crypto (CLIENT_SECRET env)
           (CLIENT_KEY env ++ accessToken ++ apiTimestamp ++ EmptyString
              ++ "GET" ++ JS.LF ++ sha256_hex crypto EmptyString ++ JS.LF
              ++ JS.LF ++ "/v2.0/cloud/thing/" ++ deviceId
              ++ "/shadow/properties"))) /\
  (forall req_method w c out c' log,
      Multi.invoke crypto env req_method w c = (out, c', log) ->
      Forall (signed_as_specified crypto env) log /\
      (forall req, nth_error log 0 = Some req -> h_access_token req = None) /\
      (forall n req, nth_error log (S n) = Some req -> h_access_token req <> None)).
Proof.
  split; [|split].
  - intros. reflexivity.
  - intros. reflexivity.
  - intros req_method w c out c' log Hrun.
    apply invoke_inv in Hrun. destruct Hrun as (res & _ & Hinv).
    apply Invocation_log in Hinv.
    destruct Hinv as [-> | [-> | (tok & _ & ->)]].
    + split; [constructor|]. split; intros; [discriminate|].
      destruct n; discriminate.
    + split; [repeat constructor; apply tokenRequest_signed|].
      split.
      * intros req Hreq. inversion Hreq. reflexivity.
      * intros [|n] req Hreq; discriminate.
    + split.
      * repeat constructor;
          [apply tokenRequest_signed | apply deviceRequest_signed ..].
      * split.
        -- intros req Hreq. inversion Hreq. reflexivity.
        -- intros [|[|[|n]]] req Hreq; inversion Hreq; discriminate.
Qed.

Lemma C1_witness :
  Forall (signed_as_specified node_crypto sample_env)
    [token_request node_crypto sample_env sample_world;
     device1_request node_crypto sample_env sample_world "T1";
     device2_request node_crypto sample_env sample_world "T1"].
Proof.
  exact (proj1 (proj2 (proj2 (C1_signature_as_specified node_crypto sample_env))
                  "GET" sample_world initial_cache _ _ _ end_to_end_scenario)).
Defined.

(** ** Cache *)

Lemma cache_get_some c now p :
  Multi.cache_get c now = Some p <->
  cachedData c = Some p /\ now - lastFetchTimestamp c < CACHE_DURATION.
Proof.
  unfold Multi.cache_get.
  destruct (cachedData c) as [d|].
  - destruct (Z.ltb_spec (now - lastFetchTimestamp c) CACHE_DURATION).
    + split; [intros H'; inversion H'; auto | intros [H' _]; exact H'].
    + split; [discriminate | intros [_ H']; lia].
  - split; [discriminate | intros [H' _]; discriminate].
Qed.

Lemma cache_get_none c now :
  Multi.cache_get c now = None <->
  cachedData c = None \/ CACHE_DURATION <= now - lastFetchTimestamp c.
Proof.
  unfold Multi.cache_get.
  destruct (cachedData c) as [d|].
  - destruct (Z.ltb_spec (now - lastFetchTimestamp c) CACHE_DURATION).
    + split; [discriminate | intros [H'|H']; [discriminate | lia]].
    + split; auto.
  - split; auto.
Qed.

Lemma cache_put_cache p t w r :
  cache (snd (Multi.cache_put p t w r))
  = {| cachedData := Some p; lastFetchTimestamp := t |}.
Proof. reflexivity. Qed.

(** C2. The cache check hits iff a payload is stored and
    now - fetchedAt is below five minutes (300000 ms); after a put at time
    [t], a get at a time within five minutes of [t] returns exactly the
    payload that was put, and a get once five minutes have elapsed
    misses. *)
Theorem C2_cache_get_hit_iff_fresh :
  (forall c now p,
      Multi.cache_get c now = Some p <->
      cachedData c = Some p /\ now - lastFetchTimestamp c < 300000) /\
  (forall c now,
      Multi.cache_get c now = None <->
      cachedData c = None \/ 300000 <= now - lastFetchTimestamp c) /\
  (forall p t w r now,
      now - t < 300000 ->
      Multi.cache_get (cache (snd (Multi.cache_put p t w r))) now = Some p) /\
  (forall p t w r now,
      300000 <= now - t ->
      Multi.cache_get (cache (snd (Multi.cache_put p t w r))) now = None).
Proof.
  change 300000 with CACHE_DURATION.
  split; [exact cache_get_some|].
  split; [exact cache_get_none|].
  split; intros p t w r now Hage; rewrite cache_put_cache.
  - apply cache_get_some. split; [reflexivity | exact Hage].
  - apply cache_get_none. right. exact Hage.
Qed.

Lemma C2_witness :
  Multi.cache_get
    (cache (snd (Multi.cache_put sample_payload 1000 sample_world
                   {| cache := initial_cache; ticks := 0; sent := [] |})))
    300999
  = Some sample_payload /\
  Multi.cache_get
    (cache (snd (Multi.cache_put sample_payload 1000 sample_world
                   {| cache := initial_cache; ticks := 0; sent := [] |})))
    301000
  = None.
Proof.
  split.
  - apply (proj1 (proj2 (proj2 C2_cache_get_hit_iff_fresh))). lia.
  - apply (proj2 (proj2 (proj2 C2_cache_get_hit_iff_fresh))). lia.
Defined.

(** ** Extraction and normalization *)

(** *** Dividing by ten in doubles *)

Lemma nearest_even_within_half n d :
  0 < d -> - d <= 2 * (d * JS.nearest_even n d - n) <= d.
Proof.
  intros Hd. unfold JS.nearest_even.
  pose proof (Z.div_mod n d ltac:(lia)) as Hdm.
  pose proof (Z.mod_pos_bound n d Hd) as Hr.
  destruct (Z.ltb_spec (2 * (n mod d)) d);
    [| destruct (Z.ltb_spec d (2 * (n mod d)));
       [| destruct (Z.even (n / d))]]; nia.
Qed.

Lemma ilog2_tenth a :
  0 < a <= 2 ^ 53 -> -4 <= JS.ilog2 a 10 <= 49.
Proof.
  intros [Hpos Hle]. unfold JS.ilog2.
  change (Z.log2 10) with 3.
  pose proof (Z.log2_nonneg a) as H0.
  assert (Hlog : Z.log2 a <= 53).
  { rewrite <- (Z.log2_pow2 53) by lia. apply Z.log2_le_mono. exact Hle. }
  destruct (Z.leb_spec 0 (Z.log2 a - 3)) as [Hl|Hl].
  - destruct (Z.leb_spec (10 * 2 ^ (Z.log2 a - 3)) a) as [Hc|Hc]; [|lia].
    split; [lia|].
    destruct (Z.eq_dec (Z.log2 a) 53) as [E|E]; [|lia].
    rewrite E in Hc. change (2 ^ (53 - 3)) with 1125899906842624 in Hc.
    change (2 ^ 53) with 9007199254740992 in Hle. lia.
  - destruct (10 <=? a * 2 ^ (- (Z.log2 a - 3))); lia.
Qed.

(** Up to 2^53 in magnitude, a tenth of [t] in doubles is [M / 2^k] with
    at least three binary places, and [M] is within a half of the exact
    [t * 2^k / 10]. *)
Lemma div_10_shape t :
  t <> 0 -> Z.abs t <= 2 ^ 53 ->
  exists M k,
    3 <= k /\
    JS.div t 10 = M # Z.to_pos (2 ^ k) /\
    -5 <= 10 * M - t * 2 ^ k <= 5.
Proof.
  intros Hne Hle.
  pose proof (ilog2_tenth (Z.abs t) ltac:(lia)) as Hi.
  unfold JS.div, JS.to_double.
  replace (Qnum (inject_Z t / inject_Z 10)) with t
    by (unfold Qdiv, Qmult, Qinv, inject_Z; cbn [Qnum Qden]; lia).
  replace (Z.pos (Qden (inject_Z t / inject_Z 10))) with 10 by reflexivity.
  destruct (Z.eqb_spec t 0) as [|_]; [contradiction|].
  rewrite Z.max_l by lia.
  set (e := JS.ilog2 (Z.abs t) 10 - 52) in *.
  destruct (Z.leb_spec 0 e) as [He|He]; [lia|].
  unfold JS.scale. destruct (Z.leb_spec 0 e) as [He'|_]; [lia|].
  exists (Z.sgn t * JS.nearest_even (Z.abs t * 2 ^ (- e)) 10), (- e).
  split; [lia|]. split; [reflexivity|].
  pose proof (nearest_even_within_half (Z.abs t * 2 ^ (- e)) 10 ltac:(lia)) as Hb.
  set (m := JS.nearest_even (Z.abs t * 2 ^ (- e)) 10) in *.
  set (P := 2 ^ (- e)) in *.
  destruct (Z.abs_spec t) as [[Hs Ha]|[Hs Ha]]; rewrite Ha in *.
  - rewrite Z.sgn_pos by lia. lia.
  - rewrite Z.sgn_neg by lia. lia.
Qed.

Lemma two_pow_ge_8 k : 3 <= k -> 8 <= 2 ^ k.
Proof.
  intros H. change 8 with (2 ^ 3). apply Z.pow_le_mono_r; lia.
Qed.

Lemma quotient_of_scaled t M P :
  8 <= P -> -5 <= 10 * M - t * P <= 5 -> M / P = t / 10.
Proof.
  intros HP Hb.
  pose proof (Z.div_mod t 10 ltac:(lia)) as Hdm.
  pose proof (Z.mod_pos_bound t 10 ltac:(lia)) as Hr.
  symmetry. apply Z.div_unique with (r := M - P * (t / 10)); [|lia].
  left. nia.
Qed.

(** Up to 2^53 in magnitude the rounding of the quotient does not reach
    the next integer: flooring the double gives the floor of the exact
    tenth. *)
Lemma floor_div_10 t :
  Z.abs t <= 2 ^ 53 -> JS.Math_floor (JS.div t 10) = t / 10.
Proof.
  intros Hle. destruct (Z.eq_dec t 0) as [->|Hne]; [reflexivity|].
  destruct (div_10_shape t Hne Hle) as (M & k & Hk & -> & Hb).
  unfold JS.Math_floor, Qfloor.
  pose proof (two_pow_ge_8 k Hk) as HP.
  rewrite Z2Pos.id by lia.
  apply quotient_of_scaled; assumption.
Qed.

(** Beyond that range the quotient can be rounded up to the next integer
    before it is floored. *)
Example floor_of_rounded_quotient :
  JS.Math_floor (JS.div 30000000000000008 10) = 3000000000000001 /\
  30000000000000008 / 10 = 3000000000000000.
Proof. vm_compute. split; reflexivity. Qed.

Lemma extractSensorData_eq data deviceId :
  Multi.extractSensorData data deviceId =
  match raw_temperature data, raw_humidity data with
  | Some t, Some h =>
      Some {| temperature := JS.Math_floor (JS.div t 10);
              humidity := Z.min h 65 |}
  | _, _ => None
  end.
Proof. reflexivity. Qed.

Lemma extract_some_inv data deviceId r :
  Multi.extractSensorData data deviceId = Some r ->
  exists t h,
    raw_temperature data = Some t /\ raw_humidity data = Some h /\
    r = {| temperature := JS.Math_floor (JS.div t 10);
           humidity := Z.min h 65 |}.
Proof.
  rewrite extractSensorData_eq.
  destruct (raw_temperature data) as [t|]; [|discriminate].
  destruct (raw_humidity data) as [h|]; [|discriminate].
  intros H; inversion H. eauto.
Qed.

(** C3, as the code has it.  For every raw temperature of magnitude at
    most 2^53, the normalized temperature is the floor of a tenth of the
    raw value, rounding toward minus infinity (not toward zero): it is the
    integer [q] with 10 q <= t < 10 q + 10.  Raw values 0, 5, 9, 10, 15, -5
    give 0, 0, 0, 1, 1, -1.  (Far beyond that range the quotient is rounded
    as a double before it is floored, see [floor_of_rounded_quotient].) *)
Theorem C3_temperature_is_floor_of_tenth :
  (forall data deviceId r t,
      Z.abs t <= 2 ^ 53 ->
      raw_temperature data = Some t ->
      Multi.extractSensorData data deviceId = Some r ->
      temperature r = t / 10 /\
      10 * temperature r <= t < 10 * temperature r + 10) /\
  (forall h deviceId,
      map (fun t =>
             option_map temperature
               (Multi.extractSensorData
                  (device_body [entry "temp_current" t; entry "humidity_value" h])
                  deviceId))
        [0; 5; 9; 10; 15; -5]
      = [Some 0; Some 0; Some 0; Some 1; Some 1; Some (-1)]).
Proof.
  split.
  - intros data deviceId r t Hbound Ht Hr.
    apply extract_some_inv in Hr. destruct Hr as (t' & h & Ht' & _ & ->).
    rewrite Ht in Ht'. inversion Ht'; subst t'. cbn [temperature].
    rewrite floor_div_10 by exact Hbound.
    split; [reflexivity|].
    pose proof (Z.div_mod t 10 ltac:(lia)).
    pose proof (Z.mod_pos_bound t 10 ltac:(lia)). lia.
  - intros h deviceId. reflexivity.
Qed.

Lemma C3_witness :
  temperature {| temperature := -1; humidity := 50 |} = -5 / 10 /\
  10 * temperature {| temperature := -1; humidity := 50 |} <= -5
    < 10 * temperature {| temperature := -1; humidity := 50 |} + 10.
Proof.
  apply (proj1 C3_temperature_is_floor_of_tenth
           (device_body [entry "temp_current" (-5); entry "humidity_value" 50])
           "D1" {| temperature := -1; humidity := 50 |} (-5)).
  - vm_compute. discriminate.
  - reflexivity.
  - reflexivity.
Defined.

(** C3, as stated, fails: truncation toward zero would send the raw value
    -5 to 0, and the handler's extraction sends it to -1. *)
Lemma C3_truncation_toward_zero_refuted :
  Multi.extractSensorData
    (device_body [entry "temp_current" (-5); entry "humidity_value" 50]) "D1"
  = Some {| temperature := -1; humidity := 50 |} /\
  Z.quot (-5) 10 = 0 /\
  -1 <> Z.quot (-5) 10.
Proof. repeat split. discriminate. Qed.



Lemma find_first_match {A : Type} (f : A -> bool) (l : list A) (p : A) :
  JS.find f l = Some p <-> first_match f l p.
Proof.
  unfold JS.find, first_match. split.
  - induction l as [|x l IH]; cbn [List.find]; [discriminate|].
    destruct (f x) eqn:Hx.
    + intros H; inversion H; subst. exists [], l. auto.
    + intros H. destruct (IH H) as (before & after & -> & Hb & Hp).
      exists (x :: before), after. auto.
  - intros (before & after & -> & Hb & Hp).
    induction Hb as [|x before Hx _ IH]; cbn [List.find app].
    + rewrite Hp. reflexivity.
    + rewrite Hx. exact IH.
Qed.

Lemma find_none_iff {A : Type} (f : A -> bool) (l : list A) :
  JS.find f l = None <-> forall p, In p l -> f p = false.
Proof.
  unfold JS.find. split; [apply List.find_none|].
  induction l as [|x l IH]; cbn [List.find]; [reflexivity|].
  intros H. rewrite (H x (or_introl eq_refl)). apply IH.
  intros p Hp. apply H. right. exact Hp.
Qed.

Lemma is_temperature_code p :
  is_temperature p = true <->
  code p = "temp_current" \/ code p = "va_temperature".
Proof.
  unfold is_temperature. rewrite orb_true_iff, !seq_true_iff. reflexivity.
Qed.

Lemma is_humidity_code p :
  is_humidity p = true <->
  code p = "humidity_value" \/ code p = "va_humidity".
Proof.
  unfold is_humidity. rewrite orb_true_iff, !seq_true_iff. reflexivity.
Qed.

(** No entry of [ps] satisfies [f] iff none of the two alias codes that [f]
    accepts occurs among the codes of [ps]. *)
Lemma no_alias_present (f : Property -> bool) (a b : string) (ps : list Property) :
  (forall p, f p = true <-> code p = a \/ code p = b) ->
  (forall p, In p ps -> f p = false) <->
  ~ In a (map code ps) /\ ~ In b (map code ps).
Proof.
  intros Hf. split.
  - intros Hnone. split; intros Hin; apply in_map_iff in Hin;
      destruct Hin as (p & Hc & Hp); specialize (Hnone p Hp);
      assert (f p = true) by (apply Hf; auto); congruence.
  - intros [Ha Hb] p Hp. destruct (f p) eqn:Hfp; [|reflexivity].
    apply Hf in Hfp. exfalso.
    destruct Hfp as [Hc|Hc]; [apply Ha | apply Hb];
      rewrite <- Hc; apply in_map; exact Hp.
Qed.

(** The value read for one measurement is absent exactly when no entry
    matches or the first entry that matches carries no value. *)
Lemma find_value_none (f : Property -> bool) (ps : list Property) :
  chain (JS.find f ps) value = None <->
  (forall p, In p ps -> f p = false) \/
  (exists p, first_match f ps p /\ value p = None).
Proof.
  destruct (JS.find f ps) as [p|] eqn:Hfind; cbn [chain].
  - split.
    + intros Hnone. right. exists p. split; [|exact Hnone].
      apply find_first_match. exact Hfind.
    + intros [Hall | (q & Hq & Hnone)].
      * apply find_none_iff in Hall. congruence.
      * apply find_first_match in Hq. rewrite Hfind in Hq.
        inversion Hq; subst q. exact Hnone.
  - split; [|reflexivity].
    intros _. left. apply find_none_iff. exact Hfind.
Qed.

(** C4, as the code has it.  Without a property list extraction returns
    null.  With one, it returns null iff for at least one measurement
    either neither alias code occurs in the list or the first entry in
    list order that has one of the two alias codes carries no value.
    When it returns a reading, each measurement comes from the first entry
    in list order whose code is either alias of that measurement: the
    order of the list decides, not the order in which the aliases are
    named. *)
Theorem C4_first_entry_in_list_order :
  forall data deviceId,
    (chain (result data) properties = None ->
     Multi.extractSensorData data deviceId = None) /\
    forall ps,
    chain (result data) properties = Some ps ->
    (Multi.extractSensorData data deviceId = None <->
     ((~ In "temp_current" (map code ps) /\ ~ In "va_temperature" (map code ps)) \/
      (exists p, first_match is_temperature ps p /\ value p = None)) \/
     ((~ In "humidity_value" (map code ps) /\ ~ In "va_humidity" (map code ps)) \/
      (exists p, first_match is_humidity ps p /\ value p = None))) /\
    (forall r,
        Multi.extractSensorData data deviceId = Some r ->
        exists pt ph t h,
          first_match is_temperature ps pt /\ value pt = Some t /\
          (code pt = "temp_current" \/ code pt = "va_temperature") /\
          temperature r = JS.Math_floor (JS.div t 10) /\
          first_match is_humidity ps ph /\ value ph = Some h /\
          (code ph = "humidity_value" \/ code ph = "va_humidity") /\
          humidity r = JS.Math_min h 65).
Proof.
  intros data deviceId. split.
  { intros Hnone. unfold Multi.extractSensorData. rewrite Hnone. reflexivity. }
  intros ps Hps. split.
  - rewrite extractSensorData_eq.
    unfold raw_temperature, raw_humidity. rewrite Hps. cbn [chain].
    rewrite <- (no_alias_present is_temperature), <- (no_alias_present is_humidity)
      by (intros; first [apply is_temperature_code | apply is_humidity_code]).
    rewrite <- !find_value_none.
    destruct (chain (JS.find is_temperature ps) value);
      destruct (chain (JS.find is_humidity ps) value);
      split; auto; try discriminate; intros [H|H]; discriminate.
  - intros r Hr. apply extract_some_inv in Hr.
    destruct Hr as (t & h & Ht & Hh & ->).
    unfold raw_temperature, raw_humidity in Ht, Hh. rewrite Hps in Ht, Hh.
    cbn [chain] in Ht, Hh.
    destruct (JS.find is_temperature ps) as [pt|] eqn:Hpt; [|discriminate].
    destruct (JS.find is_humidity ps) as [ph|] eqn:Hph; [|discriminate].
    cbn [chain] in Ht, Hh.
    apply find_first_match in Hpt, Hph.
    exists pt, ph, t, h. cbn [temperature humidity].
    repeat split; try assumption; try reflexivity.
    + apply is_temperature_code. destruct Hpt as (? & ? & _ & _ & H). exact H.
    + apply is_humidity_code. destruct Hph as (? & ? & _ & _ & H). exact H.
Qed.

Lemma C4_witness :
  (Multi.extractSensorData (device_body noisy_properties) "D1" = None <->
   ((~ In "temp_current" (map code noisy_properties) /\
     ~ In "va_temperature" (map code noisy_properties)) \/
    (exists p, first_match is_temperature noisy_properties p /\ value p = None)) \/
   ((~ In "humidity_value" (map code noisy_properties) /\
     ~ In "va_humidity" (map code noisy_properties)) \/
    (exists p, first_match is_humidity noisy_properties p /\ value p = None))) /\
  exists pt ph t h,
    first_match is_temperature noisy_properties pt /\
    value pt = Some t /\
    (code pt = "temp_current" \/ code pt = "va_temperature") /\
    temperature {| temperature := 12; humidity := 55 |}
    = JS.Math_floor (JS.div t 10) /\
    first_match is_humidity noisy_properties ph /\
    value ph = Some h /\
    (code ph = "humidity_value" \/ code ph = "va_humidity") /\
    humidity {| temperature := 12; humidity := 55 |} = JS.Math_min h 65.
Proof.
  destruct (proj2 (C4_first_entry_in_list_order
                     (device_body noisy_properties) "D1") _ eq_refl)
    as [Hnull Hfirst].
  split.
  - exact Hnull.
  - apply Hfirst. reflexivity.
Defined.

(** C4, as stated, fails twice.  With both temperature aliases in the list
    and [va_temperature] ahead of [temp_current], the reading comes from
    [va_temperature] (100, so 10), not from the first-named alias
    [temp_current] (200, so 20).  And an entry that has an alias code but
    no value makes the extraction null although an alias of each
    measurement is present. *)
Lemma C4_alias_preference_refuted :
  (In (entry "temp_current" 200)
      [entry "va_temperature" 100; entry "temp_current" 200;
       entry "humidity_value" 50] /\
   Multi.extractSensorData
     (device_body [entry "va_temperature" 100; entry "temp_current" 200;
                   entry "humidity_value" 50]) "D1"
   = Some {| temperature := 10; humidity := 50 |} /\
   10 <> JS.Math_floor (JS.div 200 10)) /\
  (In "temp_current"
      (map code [{| code := "temp_current"; value := None |};
                 entry "humidity_value" 50]) /\
   In "humidity_value"
      (map code [{| code := "temp_current"; value := None |};
                 entry "humidity_value" 50]) /\
   Multi.extractSensorData
     (device_body [{| code := "temp_current"; value := None |};
                   entry "humidity_value" 50]) "D1"
   = None).
Proof.
  split; [split; [|split] | split; [|split]].
  - right; left; reflexivity.
  - reflexivity.
  - discriminate.
  - left; reflexivity.
  - right; left; reflexivity.
  - reflexivity.
Qed.

(** ** The two variants compared *)

Lemma single_respond_eq env data :
  Single.respond env data =
  match raw_temperature data, raw_humidity data with
  | Some t, Some h =>
      {| Single.res_status := 200;
         Single.res_body :=
           Single.Reading
             {| Single.deviceId := Single.DEVICE_ID env;
                Single.temperature := JS.div t 10;
                Single.humidity := h;
                Single.unit_ := "celsius";
                Single.fullTuyaResponse := data |} |}
  | _, _ =>
      {| Single.res_status := 404;
         Single.res_body :=
           Single.DataNotFound
             "Temperature or humidity data not found for this device. Check device status codes."
             data |}
  end.
Proof. reflexivity. Qed.

Lemma div_10_is_integer t :
  Z.abs t <= 2 ^ 53 ->
  (JS.div t 10 == inject_Z (t / 10))%Q <-> t mod 10 = 0.
Proof.
  intros Hle. destruct (Z.eq_dec t 0) as [->|Hne]; [split; reflexivity|].
  destruct (div_10_shape t Hne Hle) as (M & k & Hk & -> & Hb).
  pose proof (two_pow_ge_8 k Hk) as HP.
  pose proof (Z.div_mod t 10 ltac:(lia)) as Hdm.
  pose proof (Z.mod_pos_bound t 10 ltac:(lia)) as Hr.
  unfold Qeq, inject_Z. cbn [Qnum Qden].
  rewrite Z2Pos.id by lia.
  set (P := 2 ^ k) in *. split; intros H; nia.
Qed.

(** C9, as the code has it.  From the same device body with a raw
    temperature [t] of magnitude at most 2^53 and raw humidity [h], the
    multi-device handler reports the floor of t / 10 and min(h, 65), while
    the single-device handler reports the quotient t / 10 itself, not
    floored, and [h] itself, not capped; the two readings agree exactly
    when [t] is a multiple of ten and [h] is at most 65.  Both variants
    find no data on the same bodies. *)
Theorem C9_single_variant_does_not_normalize :
  forall env data deviceId,
    (forall t h,
        Z.abs t <= 2 ^ 53 ->
        raw_temperature data = Some t ->
        raw_humidity data = Some h ->
        Multi.extractSensorData data deviceId
        = Some {| temperature := t / 10; humidity := Z.min h 65 |} /\
        (exists payload,
            Single.respond env data
            = {| Single.res_status := 200;
                 Single.res_body := Single.Reading payload |} /\
            Single.temperature payload = JS.div t 10 /\
            Single.humidity payload = h) /\
        (((JS.div t 10 == inject_Z (t / 10))%Q /\ h = Z.min h 65) <->
         (t mod 10 = 0 /\ h <= 65))) /\
    (Multi.extractSensorData data deviceId = None <->
     Single.res_status (Single.respond env data) = 404).
Proof.
  intros env data deviceId. split.
  - intros t h Hbound Ht Hh.
    rewrite extractSensorData_eq, single_respond_eq, Ht, Hh.
    rewrite floor_div_10 by exact Hbound.
    split; [reflexivity|]. split.
    + eexists. split; [reflexivity|]. split; reflexivity.
    + rewrite div_10_is_integer by exact Hbound. lia.
  - rewrite extractSensorData_eq, single_respond_eq.
    destruct (raw_temperature data); destruct (raw_humidity data);
      cbn [Single.res_status]; split; (discriminate || reflexivity).
Qed.

Lemma C9_witness :
  Multi.extractSensorData
    (device_body [entry "temp_current" 230; entry "humidity_value" 60]) "D1"
  = Some {| temperature := 230 / 10; humidity := Z.min 60 65 |} /\
  (exists payload,
      Single.respond sample_env
        (device_body [entry "temp_current" 230; entry "humidity_value" 60])
      = {| Single.res_status := 200;
           Single.res_body := Single.Reading payload |} /\
      Single.temperature payload = JS.div 230 10 /\
      Single.humidity payload = 60) /\
  (((JS.div 230 10 == inject_Z (230 / 10))%Q /\ 60 = Z.min 60 65) <->
   (230 mod 10 = 0 /\ 60 <= 65)).
Proof.
  apply (proj1 (C9_single_variant_does_not_normalize sample_env
                  (device_body [entry "temp_current" 230; entry "humidity_value" 60])
                  "D1") 230 60).
  - vm_compute. discriminate.
  - reflexivity.
  - reflexivity.
Defined.

(** C9, as stated, fails: on the body of the specification's end-to-end
    scenario (raw temperature 235, raw humidity 70) the multi-device handler
    reports 23 and 65, and the single-device handler reports 235 / 10, which
    is not the integer 23, and 70, which is above the cap. *)
Lemma C9_variants_differ :
  Multi.extractSensorData
    (device_body [entry "temp_current" 235; entry "humidity_value" 70]) "D1"
  = Some {| temperature := 23; humidity := 65 |} /\
  Single.respond sample_env
    (device_body [entry "temp_current" 235; entry "humidity_value" 70])
  = {| Single.res_status := 200;
       Single.res_body :=
         Single.Reading
           {| Single.deviceId := "D1";
              Single.temperature := JS.div 235 10;
              Single.humidity := 70;
              Single.unit_ := "celsius";
              Single.fullTuyaResponse :=
                device_body [entry "temp_current" 235; entry "humidity_value" 70] |} |} /\
  ~ (JS.div 235 10 == inject_Z 23)%Q /\
  70 <> Z.min 70 65.
Proof.
  split; [reflexivity|]. split; [reflexivity|]. split.
  - unfold Qeq. vm_compute. discriminate.
  - discriminate.
Qed.

(** ** One invocation of the multi-device handler *)

Lemma token_granted_unique crypto env w tok1 tok2 :
  token_granted crypto env w tok1 -> token_granted crypto env w tok2 -> tok1 = tok2.
Proof.
  intros (r1 & d1 & t1 & Ho1 & Hj1 & _ & _ & Hr1 & ->)
         (r2 & d2 & t2 & Ho2 & Hj2 & _ & _ & Hr2 & ->).
  rewrite Ho1 in Ho2. inversion Ho2; subst r2.
  rewrite Hj1 in Hj2. inversion Hj2; subst d2.
  rewrite Hr1 in Hr2. inversion Hr2; subst t2. reflexivity.
Qed.

Lemma token_granted_not_failed crypto env w tok :
  token_granted crypto env w tok -> call_failed (token_outcome crypto env w) = false.
Proof.
  intros (r & d & t & Ho & Hj & Hok & Hs & _). unfold call_failed.
  rewrite Ho, Hj, Hok, Hs. reflexivity.
Qed.

Lemma settle_rejects deviceId o :
  call_failed o = true <-> exists e, settle deviceId o = inl e.
Proof.
  unfold call_failed, settle. destruct o as [msg|response].
  - split; eauto.
  - destruct (json response) as [msg|data]; [split; eauto|].
    destruct (negb (ok response) || negb (success data)).
    + split; eauto.
    + split; [discriminate | intros [e He]; discriminate].
Qed.

Lemma join_all_rejects b x y :
  (exists e, x = inl e) \/ (exists e, y = inl e) <-> exists e, join_all b x y = inl e.
Proof.
  destruct x as [e1|d1], y as [e2|d2]; cbn [join_all]; split; eauto.
  - intros [[e He]|[e He]]; discriminate.
  - intros [e He]; discriminate.
Qed.

Lemma batch_rejects crypto env w tok :
  call_failed (device1_outcome crypto env w tok) = true \/
  call_failed (device2_outcome crypto env w tok) = true <->
  exists e, batch crypto env w tok = inl e.
Proof.
  unfold batch. rewrite <- join_all_rejects.
  rewrite (settle_rejects (Multi.DEVICE_ID env)).
  rewrite (settle_rejects (Multi.DEVICE_ID_2 env)). reflexivity.
Qed.

Lemma token_granted_received crypto env w tok response :
  token_granted crypto env w tok ->
  token_outcome crypto env w = Received response ->
  exists tokenData token_result,
    json response = inr tokenData /\
    negb (ok response) || negb (success tokenData) = false /\
    result tokenData = Some token_result.
Proof.
  intros (r & d & t & Ho & Hj & Hok & Hs & Hr & _) Hrecv.
  rewrite Hrecv in Ho. inversion Ho; subst r.
  exists d, t. rewrite Hok, Hs. auto.
Qed.

Lemma token_granted_not_thrown crypto env w tok msg :
  token_granted crypto env w tok ->
  token_outcome crypto env w <> NetworkError msg.
Proof.
  intros (r & d & t & Ho & _) Hthrown. congruence.
Qed.

(** Closes the paths on which the token call fails, given a grant. *)
Ltac clash_token Hgrant :=
  match goal with
  | E : token_outcome _ _ _ = NetworkError _ |- _ =>
      exfalso; exact (token_granted_not_thrown _ _ _ _ _ Hgrant E)
  | E : token_outcome _ _ _ = Received _ |- _ =>
      let td := fresh "td" in
      let tr := fresh "tr" in
      let Hj := fresh "Hj" in
      let Hk := fresh "Hk" in
      let Hr := fresh "Hr" in
      destruct (token_granted_received _ _ _ _ _ Hgrant E)
        as (td & tr & Hj & Hk & Hr);
      congruence
  end.

Ltac same_token Hgrant :=
  match goal with
  | G : token_granted _ _ _ ?t |- _ =>
      lazymatch type of Hgrant with
      | token_granted _ _ _ t => fail
      | _ => pose proof (token_granted_unique _ _ _ _ _ G Hgrant); subst t
      end
  end.

(** On a GET that misses the cache and is granted a token, the batch of
    the two device queries decides everything. *)
Lemma Invocation_after_grant crypto env w c tok res c' log :
  Multi.cache_get c (sampled_now w) = None ->
  token_granted crypto env w tok ->
  Invocation crypto env w "GET" c res c' log ->
  log = [token_request crypto env w; device1_request crypto env w tok;
         device2_request crypto env w tok] /\
  match batch crypto env w tok with
  | inl e => res = internal_error e /\ c' = c
  | inr (device1Data, device2Data) =>
      match Multi.extractSensorData device1Data (Multi.DEVICE_ID env),
            Multi.extractSensorData device2Data (Multi.DEVICE_ID_2 env) with
      | Some reading1, Some reading2 =>
          res = {| res_status := 200;
                   res_body := Payload (Multi.responseData_of reading1 reading2) |} /\
          c' = {| cachedData := Some (Multi.responseData_of reading1 reading2);
                  lastFetchTimestamp := sampled_now w |}
      | x1, x2 =>
          res = {| res_status := 404;
                   res_body :=
                     DataNotFound
                       "Temperature or humidity data not found for one or both devices. Check device status codes."
                       x1 x2 (device1Data, device2Data) |} /\
          c' = c
      end
  end.
Proof.
  intros Hmiss Hgrant Hinv.
  inversion Hinv; subst; try discriminate; try congruence; try clash_token Hgrant;
    same_token Hgrant; (split; [reflexivity|]);
    repeat match goal with
           | E : batch _ _ _ _ = _ |- _ => rewrite E
           | E : Multi.extractSensorData _ _ = Some _ |- _ => rewrite E
           end;
    auto.
  match goal with
  | D : _ \/ _ |- _ => destruct D as [D|D]; rewrite D
  end.
  - auto.
  - match goal with
    | |- context [match ?x with Some _ => _ | None => _ end] => destruct x
    end; auto.
Qed.

(** The state machine is deterministic, so it describes the handler
    exactly. *)
Lemma Invocation_deterministic crypto env w req_method c res1 c1 log1 res2 c2 log2 :
  Invocation crypto env w req_method c res1 c1 log1 ->
  Invocation crypto env w req_method c res2 c2 log2 ->
  res1 = res2 /\ c1 = c2 /\ log1 = log2.
Proof.
  intros H1 H2.
  inversion H1; subst; inversion H2; subst;
    try (repeat split; congruence);
    try discriminate;
    try match goal with
        | G : token_granted _ _ _ _ |- _ => solve [clash_token G]
        end;
    try match goal with
        | G1 : token_granted _ _ _ ?a, G2 : token_granted _ _ _ ?b |- _ =>
            pose proof (token_granted_unique _ _ _ _ _ G1 G2); subst a
        end;
    try (repeat split; congruence).
  all: repeat match goal with
         | D : _ \/ _ |- _ => destruct D
         end; try congruence.
  all: repeat match goal with
         | E1 : batch _ _ _ ?t = inr _, E2 : batch _ _ _ ?t = inr _ |- _ =>
             rewrite E1 in E2; inversion E2; subst; clear E2
         end; try congruence.
  all: repeat split; congruence.
Qed.

Lemma Invocation_invoke crypto env w req_method c res c' log :
  Invocation crypto env w req_method c res c' log <->
  Multi.invoke crypto env req_method w c = (Some res, c', log).
Proof.
  destruct (invoke_runs crypto env w req_method c) as (r & c1 & l & Hrun & Hinv).
  split.
  - intros H.
    destruct (Invocation_deterministic _ _ _ _ _ _ _ _ _ _ _ H Hinv)
      as (-> & -> & ->).
    exact Hrun.
  - intros H. rewrite Hrun in H. inversion H; subst. exact Hinv.
Qed.

(** Whatever the path, the module state is either left as it was or
    replaced by the payload assembled from both devices' readings. *)
Lemma Invocation_cache crypto env w req_method c res c' log :
  Invocation crypto env w req_method c res c' log ->
  c' = c \/
  exists accessToken device1Data device2Data reading1 reading2,
    Multi.cache_get c (sampled_now w) = None /\
    token_granted crypto env w accessToken /\
    batch crypto env w accessToken = inr (device1Data, device2Data) /\
    Multi.extractSensorData device1Data (Multi.DEVICE_ID env) = Some reading1 /\
    Multi.extractSensorData device2Data (Multi.DEVICE_ID_2 env) = Some reading2 /\
    res = {| res_status := 200;
             res_body := Payload (Multi.responseData_of reading1 reading2) |} /\
    c' = {| cachedData := Some (Multi.responseData_of reading1 reading2);
            lastFetchTimestamp := sampled_now w |}.
Proof.
  intros H; inversion H; subst; auto.
  right. do 5 eexists. repeat split; eassumption.
Qed.

Lemma Invocation_token_failed crypto env w req_method c res c' log :
  call_failed (token_outcome crypto env w) = true ->
  Invocation crypto env w req_method c res c' log ->
  c' = c.
Proof.
  intros Hfail Hinv.
  destruct (Invocation_cache _ _ _ _ _ _ _ _ Hinv)
    as [Hsame | (tok & _ & _ & _ & _ & _ & Hgrant & _)]; [exact Hsame|].
  apply token_granted_not_failed in Hgrant. congruence.
Qed.

(** C6. On every error or incomplete path of an invocation the two module
    variables are left as they were: when the token call fails, when either
    device query fails, and when either extraction returns null.  The only
    thing an invocation ever stores is the payload assembled from the
    readings of both configured devices, on the path where the token call
    and both queries succeed and both extractions return a reading. *)
Theorem C6_cache_written_only_on_complete_reading :
  forall crypto env req_method w c out c' log,
    Multi.invoke crypto env req_method w c = (out, c', log) ->
    (call_failed (token_outcome crypto env w) = true -> c' = c) /\
    (forall accessToken,
        token_granted crypto env w accessToken ->
        call_failed (device1_outcome crypto env w accessToken) = true \/
        call_failed (device2_outcome crypto env w accessToken) = true ->
        c' = c) /\
    (forall accessToken device1Data device2Data,
        token_granted crypto env w accessToken ->
        batch crypto env w accessToken = inr (device1Data, device2Data) ->
        Multi.extractSensorData device1Data (Multi.DEVICE_ID env) = None \/
        Multi.extractSensorData device2Data (Multi.DEVICE_ID_2 env) = None ->
        c' = c) /\
    (c' = c \/
     exists accessToken device1Data device2Data reading1 reading2,
       token_granted crypto env w accessToken /\
       batch crypto env w accessToken = inr (device1Data, device2Data) /\
       Multi.extractSensorData device1Data (Multi.DEVICE_ID env) = Some reading1 /\
       Multi.extractSensorData device2Data (Multi.DEVICE_ID_2 env) = Some reading2 /\
       c' = {| cachedData := Some (Multi.responseData_of reading1 reading2);
               lastFetchTimestamp := clock w 0 |}).
Proof.
  intros crypto env req_method w c out c' log Hrun.
  apply invoke_inv in Hrun. destruct Hrun as (res & -> & Hinv).
  pose proof (Invocation_cache _ _ _ _ _ _ _ _ Hinv) as Hcache.
  split; [|split; [|split]].
  - intros Hfail. eapply Invocation_token_failed; eassumption.
  - intros tok Hgrant Hfail.
    destruct Hcache as [Hsame | (tok' & d1 & d2 & r1 & r2 & _ & Hg' & Hb & _)];
      [exact Hsame|].
    rewrite (token_granted_unique _ _ _ _ _ Hgrant Hg') in Hfail.
    apply batch_rejects in Hfail. destruct Hfail as [e He]. congruence.
  - intros tok d1 d2 Hgrant Hbatch Hnull.
    destruct Hcache
      as [Hsame | (tok' & d1' & d2' & r1 & r2 & _ & Hg' & Hb & Hx1 & Hx2 & _)];
      [exact Hsame|].
    rewrite (token_granted_unique _ _ _ _ _ Hgrant Hg') in Hbatch.
    rewrite Hb in Hbatch. inversion Hbatch; subst d1' d2'.
    destruct Hnull; congruence.
  - destruct Hcache
      as [Hsame | (tok & d1 & d2 & r1 & r2 & _ & Hg & Hb & Hx1 & Hx2 & _ & Hc)];
      [left; exact Hsame|].
    right. exists tok, d1, d2, r1, r2. auto.
Qed.

(** C7. The two device requests both leave before either answer is looked
    at, and the batch is all-or-nothing: on a GET that misses the cache and
    is granted a token, if either device query fails (a thrown fetch, a
    status outside 2xx, or a false [success] flag) the invocation answers
    500 Internal Server Error, returns no reading, leaves the module
    variables as they were, and has issued the token request and both
    device requests. *)
Theorem C7_device_batch_is_all_or_nothing :
  forall crypto env w c accessToken,
    Multi.cache_get c (clock w 0) = None ->
    token_granted crypto env w accessToken ->
    call_failed (device1_outcome crypto env w accessToken) = true \/
    call_failed (device2_outcome crypto env w accessToken) = true ->
    exists e,
      batch crypto env w accessToken = inl e /\
      Multi.invoke crypto env "GET" w c
      = (Some {| res_status := 500;
                 res_body := InternalServerError "Internal Server Error" e |},
         c,
         [token_request crypto env w;
          device1_request crypto env w accessToken;
          device2_request crypto env w accessToken]).
Proof.
  intros crypto env w c tok Hmiss Hgrant Hfail.
  apply batch_rejects in Hfail. destruct Hfail as [e He].
  exists e. split; [exact He|].
  destruct (invoke_runs crypto env w "GET" c) as (res & c' & log & Hrun & Hinv).
  rewrite Hrun.
  destruct (Invocation_after_grant _ _ _ _ _ _ _ _ Hmiss Hgrant Hinv) as [-> Hb].
  rewrite He in Hb. destruct Hb as [-> ->]. reflexivity.
Qed.

(** C8. On a GET whose cache check hits, the handler answers 200 with the
    cached payload, issues no request at all, and leaves the module
    variables as they were. *)
Theorem C8_cache_hit_short_circuits :
  forall crypto env w c data,
    cachedData c = Some data ->
    clock w 0 - lastFetchTimestamp c < 300000 ->
    Multi.invoke crypto env "GET" w c
    = (Some {| res_status := 200; res_body := Payload data |}, c, []).
Proof.
  intros crypto env w c data Hdata Hfresh.
  assert (Hhit : Multi.cache_get c (clock w 0) = Some data)
    by (apply cache_get_some; split; assumption).
  unfold Multi.invoke, Multi.handler.
  replace (JS.seq "GET" "OPTIONS") with false by reflexivity.
  replace (JS.seq "GET" "GET") with true by reflexivity.
  cbn [negb].
  unfold_effects. rewrite Hhit. reflexivity.
Qed.

(** C10. After a fetch that succeeds, the timestamp stored with the payload
    is the first clock reading of the invocation, the one taken before the
    cache check and hence before any request; the later readings, taken
    around the network calls, play no part.  So if the assignment happens
    at a time [written], the entry stays fresh for five minutes minus
    [written - clock w 0], the time the fetch took. *)
Theorem C10_timestamp_is_sampled_before_the_fetch :
  forall crypto env req_method w c c' log payload st,
    Multi.invoke crypto env req_method w c
    = (Some {| res_status := st; res_body := Payload payload |}, c', log) ->
    log <> [] ->
    cachedData c' = Some payload /\
    lastFetchTimestamp c' = clock w 0 /\
    (forall written later,
        Multi.cache_get c' later = Some payload <->
        later - written < 300000 - (written - clock w 0)).
Proof.
  intros crypto env req_method w c c' log payload st Hrun Hlog.
  apply invoke_inv in Hrun. destruct Hrun as (res & Hres & Hinv).
  inversion Hres; subst res; clear Hres.
  inversion Hinv; subst; try congruence.
  cbn [cachedData lastFetchTimestamp]. split; [reflexivity|]. split; [reflexivity|].
  intros written later. rewrite cache_get_some.
  cbn [cachedData lastFetchTimestamp]. unfold sampled_now, CACHE_DURATION.
  split; [intros [_ H']; lia | intros H'; split; [reflexivity | lia]].
Qed.

Lemma triple_eta {A B C : Type} (x : A * B * C) :
  x = (fst (fst x), snd (fst x), snd x).
Proof. destruct x as [[a b] c]. reflexivity. Defined.

Lemma sample_token_granted (w : World) :
  net w 0 (token_request node_crypto sample_env w)
  = Received {| status := 200; json := inr (token_body "T1") |} ->
  token_granted node_crypto sample_env w "T1".
Proof.
  intros Hnet. unfold token_granted, token_outcome.
  exists {| status := 200; json := inr (token_body "T1") |}, (token_body "T1"),
    {| access_token := Some "T1"; properties := None |}.
  repeat split; try reflexivity. exact Hnet.
Defined.

(** The end-to-end failure of the specification: the second device query
    comes back with [success: false]; the answer is a 500, the stale entry
    stays as it was, and both device requests have left. *)
Example end_to_end_failure :
  Multi.invoke node_crypto sample_env "GET" failing_world stale_cache
  = (Some {| res_status := 500;
             res_body :=
               InternalServerError "Internal Server Error"
                 (DeviceError "D2" {| success := false; result := None |}) |},
     stale_cache,
     [token_request node_crypto sample_env failing_world;
      device1_request node_crypto sample_env failing_world "T1";
      device2_request node_crypto sample_env failing_world "T1"]).
Proof. vm_compute. reflexivity. Qed.

(** An incomplete reading: 404, both raw bodies reported, nothing stored. *)
Example incomplete_scenario :
  Multi.invoke node_crypto sample_env "GET" incomplete_world initial_cache
  = (Some {| res_status := 404;
             res_body :=
               DataNotFound
                 "Temperature or humidity data not found for one or both devices. Check device status codes."
                 (Some sample_reading1) None
                 (device_body [entry "temp_current" 235; entry "humidity_value" 70],
                  device_body [entry "va_temperature" 128]) |},
     initial_cache,
     [token_request node_crypto sample_env incomplete_world;
      device1_request node_crypto sample_env incomplete_world "T1";
      device2_request node_crypto sample_env incomplete_world "T1"]).
Proof. vm_compute. reflexivity. Qed.

(** A refused token: the upstream status is passed on, one request left. *)
Example refused_token_scenario :
  Multi.invoke node_crypto sample_env "GET" refusing_world initial_cache
  = (Some {| res_status := 401;
             res_body :=
               TokenFailure "Failed to fetch access token from Tuya API"
                 {| success := false; result := None |} |},
     initial_cache,
     [token_request node_crypto sample_env refusing_world]).
Proof. vm_compute. reflexivity. Qed.

(** With a slow network the entry is stored under the first reading, four
    minutes before the device queries are stamped, so one minute later it
    is already stale. *)
Example slow_fetch_is_stored_under_the_first_reading :
  let c' := snd (fst (Multi.invoke node_crypto sample_env "GET" slow_world
                        initial_cache)) in
  lastFetchTimestamp c' = clock slow_world 0 /\
  clock slow_world 2 - lastFetchTimestamp c' = 240000 /\
  Multi.cache_get c' (clock slow_world 2 + 59999) = Some sample_payload /\
  Multi.cache_get c' (clock slow_world 2 + 60000) = None.
Proof. vm_compute. repeat split. Qed.

(** The single-device handler on the same answers: the reading is passed
    on as it is, 235 / 10 and 70. *)
Example single_end_to_end :
  Single.invoke node_crypto sample_env "GET" sample_world
  = (Some (Single.respond sample_env
             (device_body [entry "temp_current" 235; entry "humidity_value" 70])),
     [tokenRequest node_crypto sample_env (JS.toString (sample_clock 0));
      deviceRequest node_crypto sample_env "T1" (JS.toString (sample_clock 1)) "D1"]).
Proof. vm_compute. reflexivity. Qed.

(** A failure leaves nothing behind: from the initial module state the
    failing invocation leaves the initial state, from which the next
    invocation fetches afresh. *)
Example failure_is_not_cached :
  snd (fst (Multi.invoke node_crypto sample_env "GET" failing_world initial_cache))
  = initial_cache /\
  snd (Multi.invoke node_crypto sample_env "GET" sample_world
         (snd (fst (Multi.invoke node_crypto sample_env "GET" failing_world
                      initial_cache))))
  <> [].
Proof. vm_compute. split; [reflexivity | discriminate]. Qed.

Lemma C6_witness :
  call_failed (device2_outcome node_crypto sample_env failing_world "T1") = true /\
  snd (fst (Multi.invoke node_crypto sample_env "GET" failing_world stale_cache))
  = stale_cache.
Proof.
  split; [reflexivity|].
  apply (proj1 (proj2
           (C6_cache_written_only_on_complete_reading
              node_crypto sample_env "GET" failing_world stale_cache _ _ _
              (triple_eta _)))
           "T1" (sample_token_granted failing_world eq_refl)).
  right. reflexivity.
Defined.

Lemma C7_witness :
  exists e,
    batch node_crypto sample_env failing_world "T1" = inl e /\
    Multi.invoke node_crypto sample_env "GET" failing_world stale_cache
    = (Some {| res_status := 500;
               res_body := InternalServerError "Internal Server Error" e |},
       stale_cache,
       [token_request node_crypto sample_env failing_world;
        device1_request node_crypto sample_env failing_world "T1";
        device2_request node_crypto sample_env failing_world "T1"]).
Proof.
  apply (C7_device_batch_is_all_or_nothing
           node_crypto sample_env failing_world stale_cache "T1").
  - reflexivity.
  - apply sample_token_granted. reflexivity.
  - right. reflexivity.
Defined.

Lemma C8_witness :
  Multi.invoke node_crypto sample_env "GET" sample_world warm_cache
  = (Some {| res_status := 200; res_body := Payload sample_payload |},
     warm_cache, []).
Proof.
  apply (C8_cache_hit_short_circuits node_crypto sample_env sample_world
           warm_cache sample_payload).
  - reflexivity.
  - reflexivity.
Defined.

Lemma C10_witness :
  cachedData {| cachedData := Some sample_payload;
                lastFetchTimestamp := sample_clock 0 |} = Some sample_payload /\
  lastFetchTimestamp {| cachedData := Some sample_payload;
                        lastFetchTimestamp := sample_clock 0 |}
  = clock sample_world 0 /\
  (forall written later,
      Multi.cache_get {| cachedData := Some sample_payload;
                         lastFetchTimestamp := sample_clock 0 |} later
      = Some sample_payload <->
      later - written < 300000 - (written - clock sample_world 0)).
Proof.
  apply (C10_timestamp_is_sampled_before_the_fetch
           node_crypto sample_env "GET" sample_world initial_cache _ _ _ 200
           end_to_end_scenario).
  discriminate.
Defined.

(** * Further properties of the handlers *)

(** ** Method routing of the multi-device handler *)

(** X1. The multi-device handler answers every method other than GET by
    itself: OPTIONS with an empty 200, anything else with 405 and the
    fixed error body.  No request leaves and the module state is neither
    served nor changed, however fresh the cache is.  The comparison is
    exact, so a lower-case "get" is refused as well. *)
Theorem X1_multi_other_methods_answered_locally :
  forall crypto env req_method w c,
    (req_method = "OPTIONS" ->
     Multi.invoke crypto env req_method w c
     = (Some {| res_status := 200; res_body := EndNoBody |}, c, [])) /\
    (req_method <> "OPTIONS" -> req_method <> "GET" ->
     Multi.invoke crypto env req_method w c
     = (Some {| res_status := 405;
                res_body := ErrorMessage "Method Not Allowed"
                              "Only GET requests are supported." |}, c, [])).
Proof.
  intros crypto env req_method w c. split.
  - intros Hopt. apply Invocation_invoke. now apply Inv_options.
  - intros Hopt Hget. apply Invocation_invoke. now apply Inv_not_allowed.
Qed.

Lemma X1_witness :
  Multi.invoke node_crypto sample_env "OPTIONS" sample_world warm_cache
  = (Some {| res_status := 200; res_body := EndNoBody |}, warm_cache, []) /\
  Multi.invoke node_crypto sample_env "get" sample_world warm_cache
  = (Some {| res_status := 405;
             res_body := ErrorMessage "Method Not Allowed"
                           "Only GET requests are supported." |}, warm_cache, []).
Proof.
  split.
  - apply (proj1 (X1_multi_other_methods_answered_locally
                    node_crypto sample_env "OPTIONS" sample_world warm_cache)).
    reflexivity.
  - apply (proj2 (X1_multi_other_methods_answered_locally
                    node_crypto sample_env "get" sample_world warm_cache));
      discriminate.
Defined.

(** ** The token call of the multi-device handler *)

Lemma Invocation_miss_starts_with_token crypto env w c res c' log :
  Multi.cache_get c (sampled_now w) = None ->
  Invocation crypto env w "GET" c res c' log ->
  exists rest, log = token_request crypto env w :: rest.
Proof.
  intros Hmiss H; inversion H; subst; try discriminate; try congruence; eauto.
Qed.

(** With the secret set, the handler on the raw process environment is the
    handler on the resolved one. *)
Lemma process_invoke_resolved crypto penv secret req_method w c :
  env_CLIENT_SECRET penv = Some secret ->
  MultiProcess.invoke crypto penv req_method w c
  = Multi.invoke crypto (resolved penv secret) req_method w c.
Proof.
  intros Hsecret. destruct penv as [key sec dev1 dev2].
  cbn [env_CLIENT_SECRET] in Hsecret. subst sec.
  unfold MultiProcess.invoke, Multi.invoke, MultiProcess.handler, Multi.handler.
  destruct (JS.seq req_method "OPTIONS"); [reflexivity|].
  destruct (JS.seq req_method "GET"); [|reflexivity].
  cbn [negb]. unfold_effects.
  destruct (Multi.cache_get c (clock w 0)); reflexivity.
Qed.

(** Without the secret, a miss never gets as far as a request. *)
Lemma process_invoke_secretless crypto penv w c :
  env_CLIENT_SECRET penv = None ->
  Multi.cache_get c (clock w 0) = None ->
  exists thrown,
    MultiProcess.invoke crypto penv "GET" w c
    = (Some {| res_status := 500;
               res_body := InternalServerError "Internal Server Error"
                             (TypeError thrown) |},
       c, []).
Proof.
  intros Hsecret Hmiss. destruct penv as [key sec dev1 dev2].
  cbn [env_CLIENT_SECRET] in Hsecret. subst sec.
  eexists. unfold MultiProcess.invoke, MultiProcess.handler.
  replace (JS.seq "GET" "OPTIONS") with false by reflexivity.
  replace (JS.seq "GET" "GET") with true by reflexivity.
  cbn [negb]. unfold_effects. rewrite Hmiss. reflexivity.
Qed.

(** X2. A GET that finds the cache empty or stale begins by asking for a
    token, provided CLIENT_SECRET is set in the process environment.  An
    empty cache never hits, whatever the clock reads: the initial
    timestamp 0 is not compared when no payload is stored.  With
    CLIENT_SECRET unset the signature cannot be computed: the miss is
    answered 500 before any request leaves, and the module state is left
    as it was. *)
Theorem X2_miss_starts_with_the_token_request :
  forall crypto penv w c,
    cachedData c = None \/ 300000 <= clock w 0 - lastFetchTimestamp c ->
    (forall secret,
        env_CLIENT_SECRET penv = Some secret ->
        exists out c' rest,
          MultiProcess.invoke crypto penv "GET" w c
          = (out, c', token_request crypto (resolved penv secret) w :: rest)) /\
    (env_CLIENT_SECRET penv = None ->
     exists thrown,
       MultiProcess.invoke crypto penv "GET" w c
       = (Some {| res_status := 500;
                  res_body := InternalServerError "Internal Server Error"
                                (TypeError thrown) |},
          c, [])).
Proof.
  intros crypto penv w c Hmiss.
  apply cache_get_none in Hmiss. split.
  - intros secret Hsecret.
    rewrite (process_invoke_resolved _ _ _ _ _ _ Hsecret).
    destruct (invoke_runs crypto (resolved penv secret) w "GET" c)
      as (res & c' & log & Hrun & Hinv).
    destruct (Invocation_miss_starts_with_token _ _ _ _ _ _ _ Hmiss Hinv)
      as [rest ->].
    exists (Some res), c', rest. exact Hrun.
  - intros Hsecret. apply process_invoke_secretless; assumption.
Qed.

Lemma X2_witness :
  (exists out c' rest,
      MultiProcess.invoke node_crypto sample_process_env "GET"
        {| clock := fun _ => 5; net := net offline_world;
           second_rejects_first := false |}
        initial_cache
      = (out, c',
         token_request node_crypto (resolved sample_process_env "client-secret")
           {| clock := fun _ => 5; net := net offline_world;
              second_rejects_first := false |} :: rest)) /\
  (exists thrown,
      MultiProcess.invoke node_crypto secretless_process_env "GET"
        sample_world stale_cache
      = (Some {| res_status := 500;
                 res_body := InternalServerError "Internal Server Error"
                               (TypeError thrown) |},
         stale_cache, [])).
Proof.
  split.
  - apply (proj1 (X2_miss_starts_with_the_token_request node_crypto
                    sample_process_env
                    {| clock := fun _ => 5; net := net offline_world;
                       second_rejects_first := false |} initial_cache
                    (or_introl eq_refl))).
    reflexivity.
  - apply (proj2 (X2_miss_starts_with_the_token_request node_crypto
                    secretless_process_env sample_world stale_cache
                    ltac:(right; vm_compute; discriminate))).
    reflexivity.
Defined.

(** On the samples the two handlers agree, and without the secret a fresh
    cache is still served. *)
Example process_end_to_end :
  MultiProcess.invoke node_crypto sample_process_env "GET" sample_world initial_cache
  = Multi.invoke node_crypto sample_env "GET" sample_world initial_cache /\
  MultiProcess.invoke node_crypto secretless_process_env "GET" sample_world warm_cache
  = (Some {| res_status := 200; res_body := Payload sample_payload |},
     warm_cache, []).
Proof. vm_compute. split; reflexivity. Qed.

(** X3. When the token call is answered but refused (a status outside 2xx
    or a false [success] flag), the handler passes the upstream status
    on as its own, with the upstream body as details.  Only the token
    request has left and the module state is unchanged.  In particular an
    upstream 200 carrying [success: false] makes the handler answer 200
    with the failure body. *)
Theorem X3_multi_token_refusal_passes_the_upstream_status :
  forall crypto env w c response tokenData,
    Multi.cache_get c (clock w 0) = None ->
    token_outcome crypto env w = Received response ->
    json response = inr tokenData ->
    ok response = false \/ success tokenData = false ->
    Multi.invoke crypto env "GET" w c
    = (Some {| res_status := status response;
               res_body := TokenFailure
                             "Failed to fetch access token from Tuya API"
                             tokenData |},
       c, [token_request crypto env w]).
Proof.
  intros crypto env w c response tokenData Hmiss Hout Hjson Hbad.
  apply Invocation_invoke. eapply Inv_token_refused; eauto.
  destruct Hbad as [-> | ->]; [reflexivity | apply orb_true_r].
Qed.

Lemma X3_witness :
  Multi.invoke node_crypto sample_env "GET" soft_refusing_world stale_cache
  = (Some {| res_status := 200;
             res_body := TokenFailure
                           "Failed to fetch access token from Tuya API"
                           {| success := false; result := None |} |},
     stale_cache, [token_request node_crypto sample_env soft_refusing_world]).
Proof.
  apply (X3_multi_token_refusal_passes_the_upstream_status
           node_crypto sample_env soft_refusing_world stale_cache
           {| status := 200; json := inr {| success := false; result := None |} |}
           {| success := false; result := None |}).
  - reflexivity.
  - reflexivity.
  - reflexivity.
  - right. reflexivity.
Defined.

(** X4. When the token call throws instead (the fetch fails or the body
    does not parse), the catch block answers 500 Internal Server Error
    with the thrown message, whatever status came with an unparsable body.
    Only the token request has left and the module state is unchanged. *)
Theorem X4_multi_thrown_token_call_is_a_500 :
  forall crypto env w c msg,
    Multi.cache_get c (clock w 0) = None ->
    token_outcome crypto env w = NetworkError msg \/
    (exists response,
        token_outcome crypto env w = Received response /\
        json response = inl msg) ->
    Multi.invoke crypto env "GET" w c
    = (Some {| res_status := 500;
               res_body := InternalServerError "Internal Server Error"
                             (FetchFailed msg) |},
       c, [token_request crypto env w]).
Proof.
  intros crypto env w c msg Hmiss [Hout | (response & Hout & Hjson)];
    apply Invocation_invoke.
  - now apply Inv_token_threw.
  - eapply Inv_token_unparsed; eauto.
Qed.

Lemma X4_witness :
  Multi.invoke node_crypto sample_env "GET" offline_world stale_cache
  = (Some {| res_status := 500;
             res_body := InternalServerError "Internal Server Error"
                           (FetchFailed "ECONNREFUSED") |},
     stale_cache, [token_request node_crypto sample_env offline_world]).
Proof.
  apply (X4_multi_thrown_token_call_is_a_500
           node_crypto sample_env offline_world stale_cache "ECONNREFUSED").
  - reflexivity.
  - left. reflexivity.
Defined.

(** X5. A token answer that claims success but carries no [result] is not
    reported as a token failure: reading [access_token] off the missing
    result throws, and the handler answers 500 after the single token
    request. *)
Theorem X5_multi_token_success_without_result_is_a_500 :
  forall crypto env w c response tokenData,
    Multi.cache_get c (clock w 0) = None ->
    token_outcome crypto env w = Received response ->
    json response = inr tokenData ->
    ok response = true ->
    success tokenData = true ->
    result tokenData = None ->
    exists thrown,
      Multi.invoke crypto env "GET" w c
      = (Some {| res_status := 500;
                 res_body := InternalServerError "Internal Server Error"
                               (TypeError thrown) |},
         c, [token_request crypto env w]).
Proof.
  intros crypto env w c response tokenData Hmiss Hout Hjson Hok Hs Hres.
  eexists. apply Invocation_invoke.
  eapply Inv_token_without_result; eauto.
  rewrite Hok, Hs. reflexivity.
Qed.

Lemma X5_witness :
  exists thrown,
    Multi.invoke node_crypto sample_env "GET" hollow_token_world initial_cache
    = (Some {| res_status := 500;
               res_body := InternalServerError "Internal Server Error"
                             (TypeError thrown) |},
       initial_cache, [token_request node_crypto sample_env hollow_token_world]).
Proof.
  apply (X5_multi_token_success_without_result_is_a_500
           node_crypto sample_env hollow_token_world initial_cache
           {| status := 200; json := inr {| success := true; result := None |} |}
           {| success := true; result := None |});
    reflexivity.
Defined.

(** X6. Nothing checks that a granted [result] holds an [access_token]:
    when it is missing, both device queries go out all the same, carrying
    and signed with the text "undefined" in its place. *)
Theorem X6_multi_missing_access_token_is_sent_as_undefined :
  forall crypto env w c response tokenData token_result,
    Multi.cache_get c (clock w 0) = None ->
    token_outcome crypto env w = Received response ->
    json response = inr tokenData ->
    ok response = true ->
    success tokenData = true ->
    result tokenData = Some token_result ->
    access_token token_result = None ->
    exists out c',
      Multi.invoke crypto env "GET" w c
      = (out, c',
         [token_request crypto env w;
          device1_request crypto env w "undefined";
          device2_request crypto env w "undefined"]) /\
      h_access_token (device1_request crypto env w "undefined") = Some "undefined" /\
      h_sign (device1_request crypto env w "undefined")
      = apiSign crypto env "undefined" (JS.toString (clock w 2)) (ENV_DEVICE_ID env).
Proof.
  intros crypto env w c response tokenData token_result
    Hmiss Hout Hjson Hok Hs Hres Htok.
  assert (Hgrant : token_granted crypto env w "undefined").
  { exists response, tokenData, token_result. rewrite Htok. auto 10. }
  destruct (invoke_runs crypto env w "GET" c) as (res & c' & log & Hrun & Hinv).
  destruct (Invocation_after_grant _ _ _ _ _ _ _ _ Hmiss Hgrant Hinv) as [-> _].
  exists (Some res), c'. split; [exact Hrun|]. split; reflexivity.
Qed.

Lemma X6_witness :
  exists out c',
    Multi.invoke node_crypto sample_env "GET" tokenless_world initial_cache
    = (out, c',
       [token_request node_crypto sample_env tokenless_world;
        device1_request node_crypto sample_env tokenless_world "undefined";
        device2_request node_crypto sample_env tokenless_world "undefined"]) /\
    h_access_token (device1_request node_crypto sample_env tokenless_world "undefined")
    = Some "undefined" /\
    h_sign (device1_request node_crypto sample_env tokenless_world "undefined")
    = apiSign node_crypto sample_env "undefined"
        (JS.toString (clock tokenless_world 2)) (ENV_DEVICE_ID sample_env).
Proof.
  apply (X6_multi_missing_access_token_is_sent_as_undefined
           node_crypto sample_env tokenless_world initial_cache
           {| status := 200;
              json := inr {| success := true;
                             result := Some {| access_token := None;
                                               properties := None |} |} |}
           {| success := true;
              result := Some {| access_token := None; properties := None |} |}
           {| access_token := None; properties := None |});
    reflexivity.
Defined.

(** ** The device batch of the multi-device handler *)

Lemma settle_device_error deviceId o id data :
  settle deviceId o = inl (DeviceError id data) ->
  id = deviceId /\
  exists response,
    o = Received response /\ json response = inr data /\
    (ok response = false \/ success data = false).
Proof.
  unfold settle. destruct o as [msg|response]; [discriminate|].
  destruct (json response) as [msg|body] eqn:Hjson; [discriminate|].
  destruct (negb (ok response) || negb (success body)) eqn:Hbad; [|discriminate].
  intros H; inversion H; subst. split; [reflexivity|].
  exists response. split; [reflexivity|]. split; [exact Hjson|].
  apply orb_true_iff in Hbad. destruct Hbad as [Hb|Hb];
    apply negb_true_iff in Hb; auto.
Qed.

Lemma join_all_rejection b x y e :
  join_all b x y = inl e -> x = inl e \/ y = inl e.
Proof.
  destruct x as [e1|d1], y as [e2|d2]; cbn [join_all]; intros H;
    inversion H; subst; auto.
  destruct b; auto.
Qed.

(** X7. A 500 that reports a device failure names a device whose query was
    really answered and refused: the error carries the id of the first or
    of the second configured device together with the very body that
    device's query returned, and that answer had a status outside 2xx or a
    false [success] flag. *)
Theorem X7_multi_device_error_names_a_refused_device :
  forall crypto env req_method w c c' log st err id data,
    Multi.invoke crypto env req_method w c
    = (Some {| res_status := st;
               res_body := InternalServerError err (DeviceError id data) |},
       c', log) ->
    exists accessToken response,
      token_granted crypto env w accessToken /\
      json response = inr data /\
      (ok response = false \/ success data = false) /\
      ((id = ENV_DEVICE_ID env /\
        device1_outcome crypto env w accessToken = Received response) \/
       (id = WINE_DEVICE_ID env /\
        device2_outcome crypto env w accessToken = Received response)).
Proof.
  intros crypto env req_method w c c' log st err id data Hrun.
  apply invoke_inv in Hrun. destruct Hrun as (res & Hres & Hinv).
  inversion Hres; subst res; clear Hres.
  inversion Hinv; subst; try discriminate.
  match goal with
  | Hb : batch _ _ _ ?tok = inl _, Hg : token_granted _ _ _ ?tok |- _ =>
      unfold batch in Hb; apply join_all_rejection in Hb;
      destruct Hb as [Hb|Hb]; apply settle_device_error in Hb;
      destruct Hb as (-> & response & Ho & Hj & Hbad);
      exists tok, response; repeat split; auto
  end.
Qed.

Lemma X7_witness :
  exists accessToken response,
    token_granted node_crypto sample_env failing_world accessToken /\
    json response = inr {| success := false; result := None |} /\
    (ok response = false \/
     success {| success := false; result := None |} = false) /\
    (("D2" = ENV_DEVICE_ID sample_env /\
      device1_outcome node_crypto sample_env failing_world accessToken
      = Received response) \/
     ("D2" = WINE_DEVICE_ID sample_env /\
      device2_outcome node_crypto sample_env failing_world accessToken
      = Received response)).
Proof.
  exact (X7_multi_device_error_names_a_refused_device
           node_crypto sample_env "GET" failing_world stale_cache _ _ _ _ _ _
           end_to_end_failure).
Defined.

(** X8. When both queries succeed but a reading is incomplete, the handler
    answers 404 and the body tells which device is at fault: it carries
    each device's extraction, a reading for the complete one and null for
    the other, next to both raw bodies.  All three requests have left and
    the module state is unchanged. *)
Theorem X8_multi_incomplete_reading_is_reported_per_device :
  forall crypto env w c accessToken device1Data device2Data,
    Multi.cache_get c (clock w 0) = None ->
    token_granted crypto env w accessToken ->
    batch crypto env w accessToken = inr (device1Data, device2Data) ->
    Multi.extractSensorData device1Data (ENV_DEVICE_ID env) = None \/
    Multi.extractSensorData device2Data (WINE_DEVICE_ID env) = None ->
    exists message,
      Multi.invoke crypto env "GET" w c
      = (Some {| res_status := 404;
                 res_body :=
                   DataNotFound message
                     (Multi.extractSensorData device1Data (ENV_DEVICE_ID env))
                     (Multi.extractSensorData device2Data (WINE_DEVICE_ID env))
                     (device1Data, device2Data) |},
         c,
         [token_request crypto env w;
          device1_request crypto env w accessToken;
          device2_request crypto env w accessToken]).
Proof.
  intros crypto env w c tok d1 d2 Hmiss Hgrant Hbatch Hnull.
  eexists. apply Invocation_invoke.
  eapply Inv_incomplete; eauto.
Qed.

Lemma X8_witness :
  exists message,
    Multi.invoke node_crypto sample_env "GET" incomplete_world initial_cache
    = (Some {| res_status := 404;
               res_body :=
                 DataNotFound message
                   (Multi.extractSensorData
                      (device_body [entry "temp_current" 235;
                                    entry "humidity_value" 70])
                      (ENV_DEVICE_ID sample_env))
                   (Multi.extractSensorData
                      (device_body [entry "va_temperature" 128])
                      (WINE_DEVICE_ID sample_env))
                   (device_body [entry "temp_current" 235; entry "humidity_value" 70],
                    device_body [entry "va_temperature" 128]) |},
       initial_cache,
       [token_request node_crypto sample_env incomplete_world;
        device1_request node_crypto sample_env incomplete_world "T1";
        device2_request node_crypto sample_env incomplete_world "T1"]).
Proof.
  apply (X8_multi_incomplete_reading_is_reported_per_device
           node_crypto sample_env incomplete_world initial_cache "T1").
  - reflexivity.
  - apply sample_token_granted. reflexivity.
  - reflexivity.
  - right. reflexivity.
Defined.

(** ** What is served and what is stored *)

(** X9. Whenever the handler serves a payload, from the cache or freshly
    fetched, the status is 200 and the module state it leaves holds that
    very payload, fresh at the time the invocation sampled: what a client
    sees is what the next client within the ttl will see. *)
Theorem X9_served_payload_is_the_stored_one :
  forall crypto env req_method w c c' log st payload,
    Multi.invoke crypto env req_method w c
    = (Some {| res_status := st; res_body := Payload payload |}, c', log) ->
    st = 200 /\
    cachedData c' = Some payload /\
    Multi.cache_get c' (clock w 0) = Some payload.
Proof.
  intros crypto env req_method w c c' log st payload Hrun.
  apply invoke_inv in Hrun. destruct Hrun as (res & Hres & Hinv).
  inversion Hres; subst res; clear Hres.
  inversion Hinv; subst; try discriminate.
  - split; [reflexivity|].
    match goal with H : Multi.cache_get _ _ = Some _ |- _ =>
      pose proof (proj1 (cache_get_some _ _ _) H) as [Hd _]; auto end.
  - split; [reflexivity|]. split; [reflexivity|].
    apply cache_get_some. cbn [cachedData lastFetchTimestamp].
    split; [reflexivity|]. unfold sampled_now, CACHE_DURATION. lia.
Qed.

Lemma X9_witness :
  200 = 200 /\
  cachedData warm_cache = Some sample_payload /\
  Multi.cache_get warm_cache (clock sample_world 0) = Some sample_payload.
Proof.
  apply (X9_served_payload_is_the_stored_one
           node_crypto sample_env "GET" sample_world warm_cache warm_cache []
           200 sample_payload).
  vm_compute. reflexivity.
Defined.

(** X10. One upstream fetch serves five minutes of calls.  After an
    invocation that fetched a payload, a GET whose first clock reading is
    less than 300000 ms past that invocation's first reading gets the same
    payload with no request at all and leaves the module state alone; a
    GET at 300000 ms or later goes back to the platform, token first. *)
Theorem X10_calls_within_the_ttl_share_one_fetch :
  forall crypto env req_method w1 w2 c c1 log1 st payload,
    Multi.invoke crypto env req_method w1 c
    = (Some {| res_status := st; res_body := Payload payload |}, c1, log1) ->
    log1 <> [] ->
    (clock w2 0 - clock w1 0 < 300000 ->
     Multi.invoke crypto env "GET" w2 c1
     = (Some {| res_status := 200; res_body := Payload payload |}, c1, [])) /\
    (300000 <= clock w2 0 - clock w1 0 ->
     exists out c2 rest,
       Multi.invoke crypto env "GET" w2 c1
       = (out, c2, token_request crypto env w2 :: rest)).
Proof.
  intros crypto env req_method w1 w2 c c1 log1 st payload Hrun Hlog.
  apply invoke_inv in Hrun. destruct Hrun as (res & Hres & Hinv).
  inversion Hres; subst res; clear Hres.
  inversion Hinv; subst; try discriminate; try congruence.
  split.
  - intros Hage. apply Invocation_invoke. apply Inv_hit; [reflexivity|].
    apply cache_get_some. cbn [cachedData lastFetchTimestamp].
    split; [reflexivity | exact Hage].
  - intros Hage.
    destruct (invoke_runs crypto env w2 "GET"
                {| cachedData := Some (Multi.responseData_of reading1 reading2);
                   lastFetchTimestamp := sampled_now w1 |})
      as (res & c2 & log & Hrun2 & Hinv2).
    assert (Hmiss : Multi.cache_get
                      {| cachedData := Some (Multi.responseData_of reading1 reading2);
                         lastFetchTimestamp := sampled_now w1 |}
                      (sampled_now w2) = None).
    { apply cache_get_none. right. exact Hage. }
    destruct (Invocation_miss_starts_with_token _ _ _ _ _ _ _ Hmiss Hinv2)
      as [rest ->].
    exists (Some res), c2, rest. exact Hrun2.
Qed.

Lemma X10_witness :
  Multi.invoke node_crypto sample_env "GET" (later_world 299999)
    {| cachedData := Some sample_payload; lastFetchTimestamp := sample_clock 0 |}
  = (Some {| res_status := 200; res_body := Payload sample_payload |},
     {| cachedData := Some sample_payload; lastFetchTimestamp := sample_clock 0 |},
     []) /\
  exists out c2 rest,
    Multi.invoke node_crypto sample_env "GET" (later_world 300000)
      {| cachedData := Some sample_payload; lastFetchTimestamp := sample_clock 0 |}
    = (out, c2,
       token_request node_crypto sample_env (later_world 300000) :: rest).
Proof.
  split.
  - apply (proj1 (X10_calls_within_the_ttl_share_one_fetch
                    node_crypto sample_env "GET" sample_world (later_world 299999)
                    initial_cache _ _ 200 sample_payload end_to_end_scenario
                    ltac:(discriminate))).
    reflexivity.
  - apply (proj2 (X10_calls_within_the_ttl_share_one_fetch
                    node_crypto sample_env "GET" sample_world (later_world 300000)
                    initial_cache _ _ 200 sample_payload end_to_end_scenario
                    ltac:(discriminate))).
    discriminate.
Defined.

(** ** Invariants of the module state over runs of invocations *)

Lemma extracted_humidity_capped data deviceId r :
  Multi.extractSensorData data deviceId = Some r -> humidity r <= 65.
Proof.
  intros H. apply extract_some_inv in H.
  destruct H as (t & h & _ & _ & ->). cbn [humidity]. lia.
Qed.

Lemma Invocation_keeps_cache_ok crypto env w req_method c res c' log :
  Invocation crypto env w req_method c res c' log ->
  cache_ok c -> cache_ok c'.
Proof.
  intros Hinv Hok.
  destruct (Invocation_cache _ _ _ _ _ _ _ _ Hinv)
    as [-> | (tok & d1 & d2 & r1 & r2 & _ & _ & _ & Hx1 & Hx2 & _ & ->)];
    [exact Hok|].
  unfold cache_ok, payload_ok, entry_ok. cbn.
  repeat split; eapply extracted_humidity_capped; eassumption.
Qed.

Lemma Invocation_serves_ok crypto env w req_method c c' log st payload :
  Invocation crypto env w req_method c
    {| res_status := st; res_body := Payload payload |} c' log ->
  cache_ok c -> payload_ok payload.
Proof.
  intros Hinv Hok. inversion Hinv; subst; try discriminate.
  - match goal with H : Multi.cache_get _ _ = Some _ |- _ =>
      apply cache_get_some in H; destruct H as [Hd _] end.
    unfold cache_ok in Hok. rewrite Hd in Hok. exact Hok.
  - unfold payload_ok, entry_ok. cbn.
    repeat split; eapply extracted_humidity_capped; eassumption.
Qed.

(** X11. Over any run of invocations, whatever the methods, the clock and
    the network do, a module state that starts out well formed stays so
    (as the freshly loaded module is): a stored payload always has both
    entries in celsius with a humidity of at most 65, and so has every
    payload that is served along the way. *)
Theorem X11_stored_and_served_payloads_stay_capped :
  forall crypto env calls c,
    cache_ok c ->
    cache_ok (snd (serve crypto env calls c)) /\
    Forall (fun out =>
              forall st payload,
                out = Some {| res_status := st; res_body := Payload payload |} ->
                payload_ok payload)
      (fst (serve crypto env calls c)).
Proof.
  intros crypto env calls. induction calls as [|[req_method w] rest IH];
    intros c Hok.
  - split; [exact Hok | constructor].
  - cbn [serve].
    destruct (invoke_runs crypto env w req_method c)
      as (res & c' & log & Hrun & Hinv).
    rewrite Hrun.
    pose proof (Invocation_keeps_cache_ok _ _ _ _ _ _ _ _ Hinv Hok) as Hok'.
    specialize (IH c' Hok'). destruct IH as [IHc IHs].
    destruct (serve crypto env rest c') as [outs c''] eqn:Hserve.
    cbn [fst snd] in *. split; [exact IHc|].
    constructor; [|exact IHs].
    intros st payload Hout. inversion Hout; subst res.
    eapply Invocation_serves_ok; eassumption.
Qed.

Lemma X11_witness :
  cache_ok (snd (serve node_crypto sample_env
                   [("GET", failing_world); ("GET", sample_world);
                    ("POST", sample_world); ("GET", later_world 1000)]
                   initial_cache)) /\
  Forall (fun out =>
            forall st payload,
              out = Some {| res_status := st; res_body := Payload payload |} ->
              payload_ok payload)
    (fst (serve node_crypto sample_env
            [("GET", failing_world); ("GET", sample_world);
             ("POST", sample_world); ("GET", later_world 1000)]
            initial_cache)).
Proof.
  apply (X11_stored_and_served_payloads_stay_capped node_crypto sample_env
           [("GET", failing_world); ("GET", sample_world);
            ("POST", sample_world); ("GET", later_world 1000)]
           initial_cache).
  reflexivity.
Defined.

(** A run in which the second call fills the cache and the fourth is
    served from it. *)
Example run_of_four_calls :
  map (option_map res_status)
    (fst (serve node_crypto sample_env
            [("GET", failing_world); ("GET", sample_world);
             ("POST", sample_world); ("GET", later_world 1000)]
            initial_cache))
  = [Some 500; Some 200; Some 405; Some 200].
Proof. vm_compute. reflexivity. Qed.

Lemma Invocation_keeps_payload crypto env w req_method c res c' log :
  Invocation crypto env w req_method c res c' log ->
  cachedData c <> None -> cachedData c' <> None.
Proof.
  intros Hinv Hsome.
  destruct (Invocation_cache _ _ _ _ _ _ _ _ Hinv)
    as [-> | (tok & d1 & d2 & r1 & r2 & _ & _ & _ & _ & _ & _ & ->)];
    [exact Hsome | discriminate].
Qed.

(** X12. Nothing ever empties the cache or lets an entry expire in place:
    once a payload is stored, every later module state of the run holds a
    payload, through failures and incomplete readings alike.  A stale
    entry stays stored until a complete fetch replaces it. *)
Theorem X12_a_stored_payload_is_never_dropped :
  forall crypto env calls c,
    cachedData c <> None ->
    cachedData (snd (serve crypto env calls c)) <> None.
Proof.
  intros crypto env calls. induction calls as [|[req_method w] rest IH];
    intros c Hsome; [exact Hsome|].
  cbn [serve].
  destruct (invoke_runs crypto env w req_method c)
    as (res & c' & log & Hrun & Hinv).
  rewrite Hrun.
  pose proof (Invocation_keeps_payload _ _ _ _ _ _ _ _ Hinv Hsome) as Hsome'.
  specialize (IH c' Hsome').
  destruct (serve crypto env rest c') as [outs c'']. exact IH.
Qed.

Lemma X12_witness :
  cachedData (snd (serve node_crypto sample_env
                     [("GET", failing_world); ("GET", offline_world);
                      ("GET", incomplete_world)]
                     stale_cache)) <> None.
Proof.
  apply (X12_a_stored_payload_is_never_dropped node_crypto sample_env
           [("GET", failing_world); ("GET", offline_world);
            ("GET", incomplete_world)]
           stale_cache).
  discriminate.
Defined.

(** ** Extraction looks only at the entries it names *)

Lemma find_filter {A : Type} (f g : A -> bool) (l : list A) :
  (forall x, f x = true -> g x = true) ->
  JS.find f (filter g l) = JS.find f l.
Proof.
  intros Hfg. unfold JS.find.
  induction l as [|x l IH]; [reflexivity|].
  cbn [filter List.find].
  destruct (g x) eqn:Hg.
  - cbn [List.find]. rewrite IH. reflexivity.
  - destruct (f x) eqn:Hf; [|exact IH].
    apply Hfg in Hf. congruence.
Qed.

(** X13. The reading depends on nothing but the entries whose code is one
    of the four aliases, in their order: removing every other entry from
    the property list, and changing the device id, the [success] flag or
    the [access_token] field of the body, leaves the extraction as it
    is. *)
Theorem X13_extraction_sees_only_alias_entries :
  forall data1 data2 deviceId1 deviceId2 ps,
    chain (result data1) properties = Some ps ->
    chain (result data2) properties = Some (filter relevant ps) ->
    Multi.extractSensorData data1 deviceId1
    = Multi.extractSensorData data2 deviceId2.
Proof.
  intros data1 data2 id1 id2 ps H1 H2.
  rewrite !extractSensorData_eq. unfold raw_temperature, raw_humidity.
  rewrite H1, H2. cbn [chain].
  rewrite !find_filter; [reflexivity | |];
    intros x Hx; unfold relevant; rewrite Hx; auto using orb_true_r.
Qed.

Lemma X13_witness :
  Multi.extractSensorData (device_body noisy_properties) "D1"
  = Multi.extractSensorData
      {| success := false;
         result := Some {| access_token := Some "T1";
                           properties := Some [entry "va_temperature" 128;
                                               entry "va_humidity" 55;
                                               entry "temp_current" 990] |} |}
      "D2".
Proof.
  apply (X13_extraction_sees_only_alias_entries
           (device_body noisy_properties) _ "D1" "D2" noisy_properties);
    reflexivity.
Defined.

(** ** What leaves on the wire *)

Lemma prefix_append (a b : string) : String.prefix a (a ++ b) = true.
Proof.
  induction a as [|x a IH]; cbn.
  - destruct b; reflexivity.
  - destruct (ascii_dec x x) as [_|Hne]; [exact IH | congruence].
Qed.

Lemma tokenRequest_on_the_wire crypto env tokenTimestamp :
  on_the_wire env (tokenRequest crypto env tokenTimestamp).
Proof.
  unfold on_the_wire, tokenRequest. cbn [method url h_client_id h_sign_method h_nonce].
  repeat split; apply prefix_append.
Qed.

Lemma deviceRequest_on_the_wire crypto env accessToken apiTimestamp deviceId :
  on_the_wire env (deviceRequest crypto env accessToken apiTimestamp deviceId).
Proof.
  unfold on_the_wire, deviceRequest.
  cbn [method url h_client_id h_sign_method h_nonce].
  repeat split; apply prefix_append.
Qed.

(** X14. Whatever happens, an invocation of the multi-device handler only
    ever sends GET requests to the fixed Tuya endpoint, identified by the
    client key, with sign method HMAC-SHA256 and an empty nonce; it sends
    none, one or three of them, never two: the device queries leave as a
    pair, and the pair shares one timestamp and one access token. *)
Theorem X14_multi_requests_on_the_wire :
  forall crypto env req_method w c out c' log,
    Multi.invoke crypto env req_method w c = (out, c', log) ->
    Forall (on_the_wire env) log /\
    (List.length log = 0%nat \/ List.length log = 1%nat \/
     List.length log = 3%nat) /\
    (forall first second,
        nth_error log 1 = Some first ->
        nth_error log 2 = Some second ->
        h_t first = h_t second /\
        h_access_token first = h_access_token second).
Proof.
  intros crypto env req_method w c out c' log Hrun.
  apply invoke_inv in Hrun. destruct Hrun as (res & _ & Hinv).
  apply Invocation_log in Hinv.
  destruct Hinv as [-> | [-> | (tok & _ & ->)]].
  - split; [constructor|]. split; [auto|]. intros; discriminate.
  - split.
    + apply Forall_cons; [apply tokenRequest_on_the_wire | apply Forall_nil].
    + split; [auto|]. intros; discriminate.
  - split.
    + apply Forall_cons; [apply tokenRequest_on_the_wire|].
      apply Forall_cons; [apply deviceRequest_on_the_wire|].
      apply Forall_cons; [apply deviceRequest_on_the_wire | apply Forall_nil].
    + split; [auto|].
      intros first second H1 H2. inversion H1. inversion H2. split; reflexivity.
Qed.

Lemma X14_witness :
  Forall (on_the_wire sample_env)
    [token_request node_crypto sample_env failing_world;
     device1_request node_crypto sample_env failing_world "T1";
     device2_request node_crypto sample_env failing_world "T1"].
Proof.
  exact (proj1 (X14_multi_requests_on_the_wire
                  node_crypto sample_env "GET" failing_world stale_cache _ _ _
                  end_to_end_failure)).
Defined.

Lemma parse_decimal_toString z : parse_decimal (JS.toString z) = Some z.
Proof.
  unfold parse_decimal, JS.toString.
  rewrite NilZero.isi.
  - cbn [option_map]. rewrite DecimalZ.of_to. reflexivity.
  - destruct z; cbn; try discriminate.
    intros H; inversion H. eapply DecimalPos.Unsigned.to_uint_nonnil; eauto.
  - destruct z; cbn; try discriminate.
    intros H; inversion H. eapply DecimalPos.Unsigned.to_uint_nonnil; eauto.
Qed.

(** X15. The [t] header of every request is a decimal number that reads
    back as a clock reading taken inside the try block just before the
    request was built: the second reading of the invocation for the token
    request, the third for the device requests.  The first reading, which
    dates the cache entry, is never sent. *)
Theorem X15_multi_timestamps_read_back :
  forall crypto env req_method w c out c' log n req,
    Multi.invoke crypto env req_method w c = (out, c', log) ->
    nth_error log n = Some req ->
    parse_decimal (h_t req)
    = Some (clock w (match n with O => 1 | S _ => 2 end)).
Proof.
  intros crypto env req_method w c out c' log n req Hrun Hreq.
  apply invoke_inv in Hrun. destruct Hrun as (res & _ & Hinv).
  apply Invocation_log in Hinv.
  destruct Hinv as [-> | [-> | (tok & _ & ->)]].
  - destruct n; discriminate.
  - destruct n as [|[|n]]; try discriminate.
    inversion Hreq; subst req. apply parse_decimal_toString.
  - destruct n as [|[|[|n]]]; try (destruct n; discriminate);
      inversion Hreq; subst req; apply parse_decimal_toString.
Qed.

Lemma X15_witness :
  parse_decimal
    (h_t (device2_request node_crypto sample_env sample_world "T1"))
  = Some (clock sample_world 2).
Proof.
  exact (X15_multi_timestamps_read_back
           node_crypto sample_env "GET" sample_world initial_cache _ _ _ 2%nat _
           end_to_end_scenario eq_refl).
Defined.

(** * Further properties of the single-device handler *)

(** The single-device handler on a GET, path by path. *)
Lemma single_invoke_get crypto env w :
  Single.invoke crypto env "GET" w =
  match single_token_outcome crypto env w with
  | NetworkError msg =>
      (Some (single_internal_error (FetchFailed msg)),
       [single_token_request crypto env w])
  | Received tokenResponse =>
      match json tokenResponse with
      | inl msg =>
          (Some (single_internal_error (FetchFailed msg)),
           [single_token_request crypto env w])
      | inr tokenData =>
          if negb (ok tokenResponse) || negb (success tokenData) then
            (Some {| Single.res_status := status tokenResponse;
                     Single.res_body :=
                       Single.UpstreamFailure
                         "Failed to fetch access token from Tuya API" tokenData |},
             [single_token_request crypto env w])
          else
            match result tokenData with
            | None =>
                (Some (single_internal_error
                         (TypeError "Cannot read properties of undefined (reading 'access_token')")),
                 [single_token_request crypto env w])
            | Some token_result =>
                let accessToken := JS.coerce (access_token token_result) in
                let log := [single_token_request crypto env w;
                            single_device_request crypto env w accessToken] in
                match single_device_outcome crypto env w accessToken with
                | NetworkError msg =>
                    (Some (single_internal_error (FetchFailed msg)), log)
                | Received response =>
                    match json response with
                    | inl msg =>
                        (Some (single_internal_error (FetchFailed msg)), log)
                    | inr data =>
                        if negb (ok response) || negb (success data) then
                          (Some {| Single.res_status := status response;
                                   Single.res_body :=
                                     Single.UpstreamFailure
                                       "Failed to fetch data from Tuya API" data |},
                           log)
                        else (Some (Single.respond env data), log)
                    end
                end
            end
      end
  end.
Proof.
  unfold Single.invoke, Single.handler.
  replace (JS.seq "GET" "OPTIONS") with false by reflexivity.
  replace (JS.seq "GET" "GET") with true by reflexivity.
  cbn [negb]. unfold_effects.
  fold (single_token_request crypto env w).
  fold (single_token_outcome crypto env w).
  destruct (single_token_outcome crypto env w) as [msg|tokenResponse];
    [reflexivity|].
  destruct (json tokenResponse) as [msg|tokenData]; [reflexivity|].
  destruct (negb (ok tokenResponse) || negb (success tokenData)); [reflexivity|].
  destruct (result tokenData) as [token_result|]; [|reflexivity].
  unfold_effects.
  fold (single_device_request crypto env w (JS.coerce (access_token token_result))).
  fold (single_device_outcome crypto env w (JS.coerce (access_token token_result))).
  destruct (single_device_outcome crypto env w (JS.coerce (access_token token_result)))
    as [msg|response]; [reflexivity|].
  destruct (json response) as [msg|data]; [reflexivity|].
  destruct (negb (ok response) || negb (success data)); reflexivity.
Qed.

Lemma single_invoke_granted crypto env w accessToken :
  single_token_granted crypto env w accessToken ->
  Single.invoke crypto env "GET" w =
  match single_device_outcome crypto env w accessToken with
  | NetworkError msg =>
      (Some (single_internal_error (FetchFailed msg)),
       [single_token_request crypto env w;
        single_device_request crypto env w accessToken])
  | Received response =>
      match json response with
      | inl msg =>
          (Some (single_internal_error (FetchFailed msg)),
           [single_token_request crypto env w;
            single_device_request crypto env w accessToken])
      | inr data =>
          if negb (ok response) || negb (success data) then
            (Some {| Single.res_status := status response;
                     Single.res_body :=
                       Single.UpstreamFailure
                         "Failed to fetch data from Tuya API" data |},
             [single_token_request crypto env w;
              single_device_request crypto env w accessToken])
          else
            (Some (Single.respond env data),
             [single_token_request crypto env w;
              single_device_request crypto env w accessToken])
      end
  end.
Proof.
  intros (response & tokenData & token_result & Ho & Hj & Hok & Hs & Hr & ->).
  rewrite single_invoke_get, Ho, Hj, Hok, Hs, Hr. reflexivity.
Qed.

(** X16. The single-device handler, too, answers every method other than
    GET by itself, OPTIONS with an empty 200 and anything else with 405,
    without reading the clock or sending a request. *)
Theorem X16_single_other_methods_answered_locally :
  forall crypto env req_method w,
    (req_method = "OPTIONS" ->
     Single.invoke crypto env req_method w
     = (Some {| Single.res_status := 200; Single.res_body := Single.EndNoBody |},
        [])) /\
    (req_method <> "OPTIONS" -> req_method <> "GET" ->
     Single.invoke crypto env req_method w
     = (Some {| Single.res_status := 405;
                Single.res_body :=
                  Single.ErrorMessage "Method Not Allowed"
                    "Only GET requests are supported." |}, [])).
Proof.
  intros crypto env req_method w. unfold Single.invoke, Single.handler. split.
  - intros ->. reflexivity.
  - intros Hopt Hget.
    apply seq_false_iff in Hopt, Hget. rewrite Hopt, Hget. reflexivity.
Qed.

Lemma X16_witness :
  Single.invoke node_crypto sample_env "OPTIONS" sample_world
  = (Some {| Single.res_status := 200; Single.res_body := Single.EndNoBody |}, []) /\
  Single.invoke node_crypto sample_env "DELETE" sample_world
  = (Some {| Single.res_status := 405;
             Single.res_body :=
               Single.ErrorMessage "Method Not Allowed"
                 "Only GET requests are supported." |}, []).
Proof.
  split.
  - apply (proj1 (X16_single_other_methods_answered_locally
                    node_crypto sample_env "OPTIONS" sample_world)).
    reflexivity.
  - apply (proj2 (X16_single_other_methods_answered_locally
                    node_crypto sample_env "DELETE" sample_world));
      discriminate.
Defined.

(** X17. Unlike the multi-device handler, which throws and answers 500,
    the single-device handler reports a refused device query the way it
    reports a refused token: it passes the upstream status on as its own,
    with the upstream body as details, after exactly two requests. *)
Theorem X17_single_device_refusal_passes_the_upstream_status :
  forall crypto env w accessToken response data,
    single_token_granted crypto env w accessToken ->
    single_device_outcome crypto env w accessToken = Received response ->
    json response = inr data ->
    ok response = false \/ success data = false ->
    Single.invoke crypto env "GET" w
    = (Some {| Single.res_status := status response;
               Single.res_body :=
                 Single.UpstreamFailure "Failed to fetch data from Tuya API" data |},
       [single_token_request crypto env w;
        single_device_request crypto env w accessToken]).
Proof.
  intros crypto env w tok response data Hgrant Ho Hj Hbad.
  rewrite (single_invoke_granted _ _ _ _ Hgrant), Ho, Hj.
  replace (negb (ok response) || negb (success data)) with true; [reflexivity|].
  destruct Hbad as [-> | ->]; [reflexivity | symmetry; apply orb_true_r].
Qed.

Lemma single_sample_token_granted (w : World) :
  net w 0 (single_token_request node_crypto sample_env w)
  = Received {| status := 200; json := inr (token_body "T1") |} ->
  single_token_granted node_crypto sample_env w "T1".
Proof.
  intros Hnet. unfold single_token_granted, single_token_outcome.
  exists {| status := 200; json := inr (token_body "T1") |}, (token_body "T1"),
    {| access_token := Some "T1"; properties := None |}.
  repeat split; try reflexivity. exact Hnet.
Defined.

Lemma X17_witness :
  Single.invoke node_crypto sample_env "GET" throttled_world
  = (Some {| Single.res_status := 429;
             Single.res_body :=
               Single.UpstreamFailure "Failed to fetch data from Tuya API"
                 {| success := false; result := None |} |},
     [single_token_request node_crypto sample_env throttled_world;
      single_device_request node_crypto sample_env throttled_world "T1"]).
Proof.
  apply (X17_single_device_refusal_passes_the_upstream_status
           node_crypto sample_env throttled_world "T1"
           {| status := 429; json := inr {| success := false; result := None |} |}
           {| success := false; result := None |}).
  - apply single_sample_token_granted. reflexivity.
  - reflexivity.
  - reflexivity.
  - left. reflexivity.
Defined.

(** X18. A refused token call makes the single-device handler pass the
    upstream status on with the upstream body; the device is never
    queried. *)
Theorem X18_single_token_refusal_passes_the_upstream_status :
  forall crypto env w response tokenData,
    single_token_outcome crypto env w = Received response ->
    json response = inr tokenData ->
    ok response = false \/ success tokenData = false ->
    Single.invoke crypto env "GET" w
    = (Some {| Single.res_status := status response;
               Single.res_body :=
                 Single.UpstreamFailure
                   "Failed to fetch access token from Tuya API" tokenData |},
       [single_token_request crypto env w]).
Proof.
  intros crypto env w response tokenData Ho Hj Hbad.
  rewrite single_invoke_get, Ho, Hj.
  replace (negb (ok response) || negb (success tokenData)) with true;
    [reflexivity|].
  destruct Hbad as [-> | ->]; [reflexivity | symmetry; apply orb_true_r].
Qed.

Lemma X18_witness :
  Single.invoke node_crypto sample_env "GET" refusing_world
  = (Some {| Single.res_status := 401;
             Single.res_body :=
               Single.UpstreamFailure
                 "Failed to fetch access token from Tuya API"
                 {| success := false; result := None |} |},
     [single_token_request node_crypto sample_env refusing_world]).
Proof.
  apply (X18_single_token_refusal_passes_the_upstream_status
           node_crypto sample_env refusing_world
           {| status := 401; json := inr {| success := false; result := None |} |}
           {| success := false; result := None |}).
  - reflexivity.
  - reflexivity.
  - left. reflexivity.
Defined.

(** X19. Every exception inside the single-device handler's try block ends
    in a 500 Internal Server Error that carries the thrown message: a
    token call or a device call that throws (failed fetch, unparsable
    body), the latter after two requests. *)
Theorem X19_single_thrown_calls_are_500 :
  forall crypto env w msg,
    (single_token_outcome crypto env w = NetworkError msg \/
     (exists response,
         single_token_outcome crypto env w = Received response /\
         json response = inl msg) ->
     Single.invoke crypto env "GET" w
     = (Some {| Single.res_status := 500;
                Single.res_body :=
                  Single.InternalServerError "Internal Server Error"
                    (FetchFailed msg) |},
        [single_token_request crypto env w])) /\
    (forall accessToken,
        single_token_granted crypto env w accessToken ->
        single_device_outcome crypto env w accessToken = NetworkError msg \/
        (exists response,
            single_device_outcome crypto env w accessToken = Received response /\
            json response = inl msg) ->
        Single.invoke crypto env "GET" w
        = (Some {| Single.res_status := 500;
                   Single.res_body :=
                     Single.InternalServerError "Internal Server Error"
                       (FetchFailed msg) |},
           [single_token_request crypto env w;
            single_device_request crypto env w accessToken])).
Proof.
  intros crypto env w msg. split.
  - intros [Ho | (response & Ho & Hj)]; rewrite single_invoke_get, Ho;
      [reflexivity | rewrite Hj; reflexivity].
  - intros tok Hgrant [Ho | (response & Ho & Hj)];
      rewrite (single_invoke_granted _ _ _ _ Hgrant), Ho;
      [reflexivity | rewrite Hj; reflexivity].
Qed.

Lemma X19_witness :
  Single.invoke node_crypto sample_env "GET" offline_world
  = (Some {| Single.res_status := 500;
             Single.res_body :=
               Single.InternalServerError "Internal Server Error"
                 (FetchFailed "ECONNREFUSED") |},
     [single_token_request node_crypto sample_env offline_world]).
Proof.
  apply (proj1 (X19_single_thrown_calls_are_500
                  node_crypto sample_env offline_world "ECONNREFUSED")).
  left. reflexivity.
Defined.

Lemma tenth_of_multiple_of_five t :
  Z.abs t <= 2 ^ 53 -> t mod 5 = 0 -> (JS.div t 10 * 10 == inject_Z t)%Q.
Proof.
  intros Hle Hfive. destruct (Z.eq_dec t 0) as [->|Hne]; [reflexivity|].
  destruct (div_10_shape t Hne Hle) as (M & k & Hk & -> & Hb).
  pose proof (two_pow_ge_8 k Hk) as HP.
  pose proof (Z.div_mod t 5 ltac:(lia)) as Hdm. rewrite Hfive in Hdm.
  assert (Hsplit : 2 ^ k = 2 * 2 ^ (k - 1)).
  { rewrite <- Z.pow_succ_r by lia. f_equal. lia. }
  unfold Qeq, Qmult, inject_Z. cbn [Qnum Qden].
  rewrite Pos2Z.inj_mul, Z2Pos.id by lia.
  rewrite Hsplit in *. set (P2 := 2 ^ (k - 1)) in *.
  set (u := t / 5) in *. nia.
Qed.

Lemma tenth_within_sixteenth t :
  Z.abs t <= 2 ^ 53 -> (Qabs (JS.div t 10 - (t # 10)) <= 1 # 16)%Q.
Proof.
  intros Hle. destruct (Z.eq_dec t 0) as [->|Hne]; [vm_compute; discriminate|].
  destruct (div_10_shape t Hne Hle) as (M & k & Hk & -> & Hb).
  pose proof (two_pow_ge_8 k Hk) as HP.
  unfold Qminus, Qplus, Qopp, Qabs, Qle. cbn [Qnum Qden].
  rewrite Pos2Z.inj_mul, Z2Pos.id by lia.
  set (P := 2 ^ k) in *. lia.
Qed.

(** X20. When the token is granted and the device query succeeds, the
    single-device handler answers after exactly two requests.  If the body
    yields both raw values it answers 200 with a reading that is neither
    floored nor capped: the temperature is the quotient of the raw value
    by ten as the double holds it, which for a raw value of magnitude at
    most 2^53 is within a sixteenth of the exact tenth and is the exact
    tenth whenever the raw value is a multiple of five; the humidity is
    the raw value, and the full upstream body is attached.  If either
    value is missing it answers 404 with the upstream body. *)
Theorem X20_single_success_reports_the_unrounded_reading :
  forall crypto env w accessToken response data,
    single_token_granted crypto env w accessToken ->
    single_device_outcome crypto env w accessToken = Received response ->
    json response = inr data ->
    ok response = true ->
    success data = true ->
    Single.invoke crypto env "GET" w
    = (Some (Single.respond env data),
       [single_token_request crypto env w;
        single_device_request crypto env w accessToken]) /\
    (forall t h,
        Z.abs t <= 2 ^ 53 ->
        raw_temperature data = Some t ->
        raw_humidity data = Some h ->
        exists payload,
          Single.respond env data
          = {| Single.res_status := 200; Single.res_body := Single.Reading payload |} /\
          Single.temperature payload = JS.div t 10 /\
          (Qabs (Single.temperature payload - (t # 10)) <= 1 # 16)%Q /\
          (t mod 5 = 0 -> (Single.temperature payload * 10 == inject_Z t)%Q) /\
          Single.humidity payload = h /\
          Single.fullTuyaResponse payload = data) /\
    (raw_temperature data = None \/ raw_humidity data = None ->
     exists message,
       Single.respond env data
       = {| Single.res_status := 404;
            Single.res_body := Single.DataNotFound message data |}).
Proof.
  intros crypto env w tok response data Hgrant Ho Hj Hok Hs.
  split; [|split].
  - rewrite (single_invoke_granted _ _ _ _ Hgrant), Ho, Hj, Hok, Hs. reflexivity.
  - intros t h Hbound Ht Hh. rewrite single_respond_eq, Ht, Hh.
    eexists. split; [reflexivity|]. cbn [Single.temperature Single.humidity
                                           Single.fullTuyaResponse].
    split; [reflexivity|].
    split; [apply tenth_within_sixteenth; exact Hbound|].
    split; [intros Hfive; apply tenth_of_multiple_of_five; assumption|].
    split; reflexivity.
  - intros Hnone. rewrite single_respond_eq.
    destruct Hnone as [-> | ->]; [eexists; reflexivity|].
    destruct (raw_temperature data); eexists; reflexivity.
Qed.

Lemma X20_witness :
  Single.invoke node_crypto sample_env "GET" sample_world
  = (Some (Single.respond sample_env
             (device_body [entry "temp_current" 235; entry "humidity_value" 70])),
     [single_token_request node_crypto sample_env sample_world;
      single_device_request node_crypto sample_env sample_world "T1"]).
Proof.
  apply (X20_single_success_reports_the_unrounded_reading
           node_crypto sample_env sample_world "T1"
           {| status := 200;
              json := inr (device_body [entry "temp_current" 235;
                                        entry "humidity_value" 70]) |}
           (device_body [entry "temp_current" 235; entry "humidity_value" 70])).
  - apply single_sample_token_granted. reflexivity.
  - reflexivity.
  - reflexivity.
  - reflexivity.
  - reflexivity.
Defined.

(** * The success path of the multi-device handler *)

(** X21. On the success path the answers are not crossed: whichever query
    comes back first, the [device] entry is the extraction of the body
    answered to the request for DEVICE_ID and the [wine_device] entry that
    of the body answered to the request for WINE_DEVICE_ID, each tagged
    celsius; that payload is answered with a 200 and stored under the
    first clock reading. *)
Theorem X21_multi_success_maps_each_device_to_its_entry :
  forall crypto env w c accessToken response1 response2 data1 data2
         reading1 reading2,
    Multi.cache_get c (clock w 0) = None ->
    token_granted crypto env w accessToken ->
    device1_outcome crypto env w accessToken = Received response1 ->
    json response1 = inr data1 -> ok response1 = true -> success data1 = true ->
    device2_outcome crypto env w accessToken = Received response2 ->
    json response2 = inr data2 -> ok response2 = true -> success data2 = true ->
    Multi.extractSensorData data1 (ENV_DEVICE_ID env) = Some reading1 ->
    Multi.extractSensorData data2 (WINE_DEVICE_ID env) = Some reading2 ->
    Multi.invoke crypto env "GET" w c
    = (Some {| res_status := 200;
               res_body :=
                 Payload {| device := {| reading := reading1; unit_ := "celsius" |};
                            wine_device := {| reading := reading2;
                                              unit_ := "celsius" |} |} |},
       {| cachedData :=
            Some {| device := {| reading := reading1; unit_ := "celsius" |};
                    wine_device := {| reading := reading2; unit_ := "celsius" |} |};
          lastFetchTimestamp := clock w 0 |},
       [token_request crypto env w;
        device1_request crypto env w accessToken;
        device2_request crypto env w accessToken]).
Proof.
  intros crypto env w c tok response1 response2 data1 data2 reading1 reading2
    Hmiss Hgrant Ho1 Hj1 Hok1 Hs1 Ho2 Hj2 Hok2 Hs2 Hx1 Hx2.
  apply Invocation_invoke.
  eapply (Inv_stored crypto env w "GET" c tok data1 data2 reading1 reading2);
    auto.
  unfold batch, settle. rewrite Ho1, Hj1, Hok1, Hs1, Ho2, Hj2, Hok2, Hs2.
  reflexivity.
Qed.

Lemma X21_witness :
  Multi.invoke node_crypto sample_env "GET" sample_world stale_cache
  = (Some {| res_status := 200;
             res_body :=
               Payload {| device := {| reading := sample_reading1;
                                       unit_ := "celsius" |};
                          wine_device := {| reading := sample_reading2;
                                            unit_ := "celsius" |} |} |},
     {| cachedData :=
          Some {| device := {| reading := sample_reading1; unit_ := "celsius" |};
                  wine_device := {| reading := sample_reading2;
                                    unit_ := "celsius" |} |};
        lastFetchTimestamp := clock sample_world 0 |},
     [token_request node_crypto sample_env sample_world;
      device1_request node_crypto sample_env sample_world "T1";
      device2_request node_crypto sample_env sample_world "T1"]).
Proof.
  apply (X21_multi_success_maps_each_device_to_its_entry
           node_crypto sample_env sample_world stale_cache "T1"
           {| status := 200;
              json := inr (device_body [entry "temp_current" 235;
                                        entry "humidity_value" 70]) |}
           {| status := 200;
              json := inr (device_body [entry "va_humidity" 55;
                                        entry "va_temperature" 128]) |}
           (device_body [entry "temp_current" 235; entry "humidity_value" 70])
           (device_body [entry "va_humidity" 55; entry "va_temperature" 128])
           sample_reading1 sample_reading2);
    try reflexivity.
  apply sample_token_granted. reflexivity.
Defined.
